(** * Multiagent-A2A: host agents, remote agent wrapper and agent cards

    A shallow embedding of the Python sources

      - [openai/host_agent/__main__.py]
      - [aifoundry/host_agent/__main__.py]
      - [openai/remote_agents/sports_results_agent/agent.py]
      - [openai/remote_agents/sports_results_agent/__main__.py]
      - [aifoundry/remote_agents/sports_news_agent/__main__.py]

    Python generators are modelled in a small monad that records the
    values yielded so far, threads the local variables that survive a
    [try]/[except] and carries either a normal completion or a raised
    exception.  Python [str] values are [string]s (one character per
    code unit); concatenation is [+:+].

    Exceptions are those deriving from [Exception], which is what the
    [except Exception] clauses of the sources catch.  Logging with
    [print] and [traceback] is left out of the chat handlers; it is kept,
    as a trace, where the application's start-up reports through it.
    What the libraries outside the repository do (the agent runner, the
    routing agent, the process environment) is a parameter of the
    function that calls them. *)

From stdpp Require Import gmap strings list.

(** ** Python values, as far as the sources inspect them *)

Module Py.

(** A value is either an instance of [str], a [bool], or some other
    object of which the code only ever looks at its truth value and at
    what [str()] makes of it. *)
Inductive value :=
| VStr (s : string)
| VBool (b : bool)
| VObj (truth : bool) (shown : string).

(** [bool(v)], as used by [if v:] and [if not v:]. *)
Definition truthy (v : value) : bool :=
  match v with
  | VStr s => negb (String.eqb s "")
  | VBool b => b
  | VObj t _ => t
  end.

(** [str(v)]. *)
Definition str (v : value) : string :=
  match v with
  | VStr s => s
  | VBool true => "True"
  | VBool false => "False"
  | VObj _ shown => shown
  end.

(** [isinstance(v, str)]. *)
Definition isinstance_str (v : value) : bool :=
  match v with VStr _ => true | _ => false end.

(** [v == 'literal']: only a [str] compares equal to a [str] literal. *)
Definition eq_lit (v : value) (lit : string) : bool :=
  match v with VStr s => String.eqb s lit | _ => false end.

(** Exceptions deriving from [Exception]: the class name and [str(e)]. *)
Record exn := Exn { exn_class : string; exn_msg : string }.

Definition AttributeError (attr : string) : exn :=
  Exn "AttributeError" ("object has no attribute '" +:+ attr +:+ "'").
Definition TypeError : exn :=
  Exn "TypeError" "can only concatenate str to str".

(** A [dict] with [str] keys. *)
Abbreviation dict := (gmap string value).

End Py.

(** ** Generators with local state and exceptions *)

Module Gen.
Import Py.

Inductive completion (A : Type) :=
| Normal (a : A)
| Raise (e : exn).
Arguments Normal {A} a.
Arguments Raise {A} e.

(** What running a piece of generator code from a given state gives:
    the values yielded, the state left behind, how it completed. *)
Record run (S Y A : Type) := Run {
  yielded : list Y;
  final : S;
  outcome : completion A
}.
Arguments Run {S Y A} yielded final outcome.
Arguments yielded {S Y A} r.
Arguments final {S Y A} r.
Arguments outcome {S Y A} r.

Definition gen (S Y A : Type) : Type := S -> run S Y A.

Section Ops.
Context {S Y : Type}.

Definition ret {A} (a : A) : gen S Y A :=
  fun s => Run [] s (Normal a).

Definition bind {A B} (m : gen S Y A) (k : A -> gen S Y B) : gen S Y B :=
  fun s =>
    let r := m s in
    match outcome r with
    | Normal a =>
        let r' := k a (final r) in
        Run (yielded r ++ yielded r') (final r') (outcome r')
    | Raise e => Run (yielded r) (final r) (Raise e)
    end.

(** [yield y] *)
Definition yield (y : Y) : gen S Y unit :=
  fun s => Run [y] s (Normal tt).

(** [raise e] *)
Definition raise {A} (e : exn) : gen S Y A :=
  fun s => Run [] s (Raise e).

Definition get : gen S Y S :=
  fun s => Run [] s (Normal s).

Definition put (s' : S) : gen S Y unit :=
  fun _ => Run [] s' (Normal tt).

(** [try: m  except Exception as e: h e].  What was yielded and
    assigned before the exception stays. *)
Definition try_except {A} (m : gen S Y A) (h : exn -> gen S Y A)
  : gen S Y A :=
  fun s =>
    let r := m s in
    match outcome r with
    | Normal a => r
    | Raise e =>
        let r' := h e (final r) in
        Run (yielded r ++ yielded r') (final r') (outcome r')
    end.

(** [try: m  finally: f].  [f] runs either way; an exception of [m]
    goes on after it unless [f] raises one of its own. *)
Definition try_finally {A} (m : gen S Y A) (f : gen S Y unit)
  : gen S Y A :=
  fun s =>
    let r := m s in
    let r' := f (final r) in
    Run (yielded r ++ yielded r') (final r')
        match outcome r' with
        | Normal _ => outcome r
        | Raise e => Raise e
        end.

(** The result of an awaited call that either returns or raises. *)
Definition await {A} (r : exn + A) : gen S Y A :=
  match r with
  | inl e => raise e
  | inr a => ret a
  end.

(** [for x in xs: body x] *)
Fixpoint for_each {A} (xs : list A) (body : A -> gen S Y unit)
  : gen S Y unit :=
  match xs with
  | [] => ret tt
  | x :: rest => bind (body x) (fun _ => for_each rest body)
  end.

(** Has the generator finished without an exception leaving it? *)
Definition returns {A} (r : run S Y A) : bool :=
  match outcome r with Normal _ => true | Raise _ => false end.
End Ops.

Declare Scope gen_scope.
Delimit Scope gen_scope with gen.
Notation "x <- m ;; k" := (bind m (fun x => k))
  (at level 100, m at next level, right associativity) : gen_scope.
Notation "m ;; k" := (bind m (fun _ => k))
  (at level 100, right associativity) : gen_scope.

End Gen.

(** ** [gr.ChatMessage] *)

Module Chat.
Import Py.

Record ChatMessage := { role : string; content : value }.

Definition assistant (text : string) : ChatMessage :=
  {| role := "assistant"; content := VStr text |}.

(** A reply is textual when its content is a [str]. *)
Definition textual (m : ChatMessage) : bool := isinstance_str (content m).
End Chat.

(** [s] is an initial part of [t]. *)
Definition str_prefix (s t : string) : Prop := exists u, t = s +:+ u.

(** [''.join(parts)] *)
Definition joined (parts : list string) : string :=
  foldr String.append "" parts.

(** Each text of the list is an initial part of the next one, starting
    from [s]. *)
Fixpoint grows_from (s : string) (texts : list string) : Prop :=
  match texts with
  | [] => True
  | t :: rest => str_prefix s t /\ grows_from t rest
  end.

(** ** Stream events of the agent runner *)

Module Events.
Import Py.

(** [event.data]: the name of its class and the two attributes the
    handler probes with [hasattr]. *)
Record data := {
  data_type_name : string;
  data_delta : option value;
  data_content : option value
}.

(** A stream event is any Python object.  The handler looks at whether
    it is an instance of [str] and at the attributes [type], [data],
    [content] and [item]; an attribute that is absent is [None]. *)
Record event := {
  ev_str : option string;
  ev_type : option value;
  ev_data : option data;
  ev_content : option value;
  ev_has_item : bool
}.

(** [hasattr(event, 'type') and event.type == lit] *)
Definition has_type (e : event) (lit : string) : bool :=
  match ev_type e with
  | Some t => eq_lit t lit
  | None => false
  end.

(** The payload of a text delta: the event is a [raw_response_event]
    whose data is a [ResponseTextDeltaEvent] with a [str] as [delta]. *)
Definition delta_payload (e : event) : option string :=
  match (if has_type e "raw_response_event" then ev_data e else None) with
  | Some d =>
      match (if String.eqb (data_type_name d) "ResponseTextDeltaEvent"
             then data_delta d else None) with
      | Some (VStr payload) => Some payload
      | _ => None
      end
  | None => None
  end.

(** The text delta event as the runner emits it. *)
Definition text_delta (payload : string) : event :=
  {| ev_str := None;
     ev_type := Some (VStr "raw_response_event");
     ev_data := Some {| data_type_name := "ResponseTextDeltaEvent";
                        data_delta := Some (VStr payload);
                        data_content := None |};
     ev_content := None;
     ev_has_item := false |}.

End Events.

(** ** The OpenAI host agent: [openai/host_agent/__main__.py] *)

Module OpenAIHost.
Import Py Gen Chat Events.
Local Open Scope gen_scope.

(** What [Runner.run_streamed] returned: the events that
    [stream_events()] produces, the exception that ends the iteration
    if one does, the [result] method if there is one (with what
    awaiting it gives) and [str(stream_result)]. *)
Record stream_result := {
  sr_events : list event;
  sr_error : option exn;
  sr_result : option (exn + value);
  sr_shown : string
}.

Definition placeholder : string := "No response received from the agent.".
Definition error_reply : string :=
  "An error occurred while processing your request. Please check the server logs for details.".

(** The local variable [accumulated_text] is the state. *)
Abbreviation handler := (gen string ChatMessage).

(** Lines 54-55: [if event.type == "run_item_stream_event":
    print(... event.item.__class__.__name__ ...)].  Neither attribute
    access is guarded. *)
Definition print_run_item (e : event) : handler unit :=
  match ev_type e with
  | None => raise (AttributeError "type")
  | Some t =>
      if eq_lit t "run_item_stream_event"
      then if ev_has_item e then ret tt else raise (AttributeError "item")
      else ret tt
  end.

(** [accumulated_text += v] followed by
    [yield gr.ChatMessage(role='assistant', content=accumulated_text)]. *)
Definition append_and_yield (v : value) : handler unit :=
  match v with
  | VStr s =>
      accumulated_text <- get ;;
      put (accumulated_text +:+ s) ;;
      yield (assistant (accumulated_text +:+ s))
  | _ => raise TypeError
  end.

(** Lines 61-80: a raw response event.  [data_type ==
    'ResponseTextDeltaEvent' and hasattr(data, 'delta')] selects the
    delta; otherwise a [str] in [data.content] is taken. *)
Definition raw_response (d : data) : handler unit :=
  match (if String.eqb (data_type_name d) "ResponseTextDeltaEvent"
         then data_delta d else None) with
  | Some delta_text =>
      if truthy delta_text then append_and_yield delta_text else ret tt
  | None =>
      match data_content d with
      | Some (VStr s) => append_and_yield (VStr s)
      | _ => ret tt
      end
  end.

(** Lines 57-108: the [if]/[elif] chain of the loop body. *)
Definition dispatch (e : event) : handler unit :=
  match (if has_type e "raw_response_event" then ev_data e else None) with
  | Some d => raw_response d
  | None =>
      if has_type e "agent_updated_stream_event" then ret tt
      else match ev_content e with
           | Some (VStr s) => append_and_yield (VStr s)
           | _ =>
               match ev_str e with
               | Some s => append_and_yield (VStr s)
               | None => ret tt
               end
           end
  end.

(** Lines 53-108: the body of [async for event in ...]. *)
Definition on_event (e : event) : handler unit :=
  print_run_item e ;; dispatch e.

(** Lines 52-108: the loop, ended by the iterator's own exception if
    it has one. *)
Definition stream_events (sr : stream_result) : handler unit :=
  for_each (sr_events sr) on_event ;;
  match sr_error sr with
  | Some e => raise e
  | None => ret tt
  end.

(** Lines 115-132: the fallback of the inner handler. *)
Definition fallback (sr : stream_result) : handler unit :=
  try_except
    (match sr_result sr with
     | Some r =>
         final_result <- await r ;;
         if truthy final_result
         then yield (assistant (str final_result))
         else ret tt
     | None => yield (assistant (sr_shown sr))
     end)
    (fun fallback_error => ret tt).

(** Lines 36-149.  [run_streamed] is what the call
    [Runner.run_streamed(routing_agent, message)] does for the
    message: raise, or return a streaming result. *)
Definition get_response_from_agent (run_streamed : exn + stream_result)
  : handler unit :=
  try_except
    (sr <- await run_streamed ;;
     put "" ;;
     try_except (stream_events sr) (fun stream_error => fallback sr) ;;
     accumulated_text <- get ;;
     if truthy (VStr accumulated_text) then ret tt
     else yield (assistant placeholder))
    (fun e => yield (assistant error_reply)).

(** One call of the handler by the chat front end. *)
Definition chat (run_streamed : exn + stream_result)
  : run string ChatMessage unit :=
  get_response_from_agent run_streamed "".

(** The aggregation loop alone, started with an empty buffer. *)
Definition aggregate (sr : stream_result) : run string ChatMessage unit :=
  stream_events sr "".

(** An event of no recognised shape: not a raw response event carrying
    data, no [str] in [content], not a [str] itself. *)
Definition unknown_shape (e : event) : bool :=
  match (if has_type e "raw_response_event" then ev_data e else None) with
  | Some _ => false
  | None =>
      match ev_content e with
      | Some (VStr _) => false
      | _ => match ev_str e with Some _ => false | None => true end
      end
  end.

End OpenAIHost.

(** ** The AI Foundry host agent: [aifoundry/host_agent/__main__.py] *)

Module AIFoundryHost.
Import Py Gen Chat.
Local Open Scope gen_scope.

(** The line feed of [\n]. *)
Definition nl : string := String (Ascii.ascii_of_nat 10) "".

(** The class [RoutingAgent] comes from the module [routing_agent];
    of an instance the application uses what [process_user_message]
    does for a message and whether [cleanup()] raises. *)
Record RoutingAgent := {
  process_user_message : string -> exn + value;
  cleanup : option exn
}.

(** [self]: the application object. *)
Record RoutingAgentApp := {
  routing_agent : option RoutingAgent;
  demo : bool
}.

(** [__init__] *)
Definition init : RoutingAgentApp :=
  {| routing_agent := None; demo := false |}.

Definition set_routing_agent (a : option RoutingAgent)
    (self : RoutingAgentApp) : RoutingAgentApp :=
  {| routing_agent := a; demo := demo self |}.

Definition set_demo (self : RoutingAgentApp) : RoutingAgentApp :=
  {| routing_agent := routing_agent self; demo := true |}.

(** *** The chat handler (lines 63-104) *)

Definition not_initialized : string :=
  "❌ **Error**: Routing agent not initialized. Please restart the application.".
Definition processing : string := "🤔 **Processing your request...**".
Definition no_response : string :=
  "❌ **Error**: No response received from the agent.".
Definition error_reply (e : exn) : string :=
  "❌ **An error occurred**: " +:+ exn_msg e +:+ nl +:+ nl
    +:+ "Please check the server logs for details.".

Definition get_response_from_agent (message : string)
  : gen RoutingAgentApp ChatMessage unit :=
  self <- get ;;
  match routing_agent self with
  | None => yield (assistant not_initialized)
  | Some agent =>
      try_except
        (yield (assistant processing) ;;
         response <- await (process_user_message agent message) ;;
         if truthy response
         then yield {| role := "assistant"; content := response |}
         else yield (assistant no_response))
        (fun e => yield (assistant (error_reply e)))
  end.

(** *** Start-up and shutdown (lines 30-61 and 150-193)

    What the application does to the outside is recorded as a trace. *)
Inductive effect :=
| Print (line : string)
| CreateRoutingAgent (remote_agent_addresses : list string)
| CreateAzureAgent
| RoutingAgentCleanup
| LaunchInterface (server_port : Z).

#[global] Instance effect_eq_dec : EqDecision effect.
Proof. solve_decision. Defined.

Abbreviation app := (gen RoutingAgentApp effect).

Definition print (line : string) : app unit := yield (Print line).

(** The process environment and what the services outside answer:
    [RoutingAgent.create], [create_agent()], and the exceptions, if any,
    of building the interface ([create_gradio_interface], line 179) and
    of queueing and launching it (lines 182-185). *)
Record world := {
  environ : gmap string string;
  create : exn + RoutingAgent;
  create_agent : exn + (string * string);
  gradio_interface : option exn;
  launch : option exn
}.

(** [os.getenv(var)], taken as a condition: unset and empty are both
    false. *)
Definition getenv_set (w : world) (var : string) : bool :=
  match environ w !! var with
  | Some v => negb (String.eqb v "")
  | None => false
  end.

(** [os.getenv(var, default)] *)
Definition getenv_default (w : world) (var default : string) : string :=
  from_option id default (environ w !! var).

Definition required_env_vars : list string :=
  ["AZURE_AI_AGENT_ENDPOINT"; "AZURE_AI_AGENT_MODEL_DEPLOYMENT_NAME"].

Definition app_creds : list string :=
  ["AZURE_CLIENT_ID"; "AZURE_CLIENT_SECRET"; "AZURE_TENANT_ID"].

(** [[var for var in required_env_vars if not os.getenv(var)]] *)
Definition missing_vars (w : world) : list string :=
  List.filter (fun var => negb (getenv_set w var)) required_env_vars.

(** Lines 30-50. *)
Definition initialize_routing_agent (w : world) : app unit :=
  try_except
    (print "Initializing Azure AI routing agent..." ;;
     yield (CreateRoutingAgent
              [getenv_default w "SPORTS_RESULTS_URL" "http://localhost:10001";
               getenv_default w "SPORTS_NEWS_URL" "http://localhost:10002"]) ;;
     agent <- await (create w) ;;
     self <- get ;;
     put (set_routing_agent (Some agent) self) ;;
     yield CreateAzureAgent ;;
     azure_agent <- await (create_agent w) ;;
     print ("Azure AI routing agent initialized successfully with Name and ID: "
              +:+ fst azure_agent +:+ " - " +:+ snd azure_agent))
    (fun e =>
       print ("Failed to initialize routing agent: " +:+ exn_msg e) ;;
       raise e).

(** Lines 52-61. *)
Definition cleanup_routing_agent : app unit :=
  self <- get ;;
  match routing_agent self with
  | Some agent =>
      try_finally
        (try_except
           (yield RoutingAgentCleanup ;;
            match cleanup agent with
            | Some e => raise e
            | None => print "Routing agent cleaned up successfully."
            end)
           (fun e => print ("Error during cleanup: " +:+ exn_msg e)))
        (self <- get ;; put (set_routing_agent None self))
  | None => ret tt
  end.

(** Lines 150-193. *)
Definition run (w : world) : app unit :=
  let has_app_creds := forallb (getenv_set w) app_creds in
  match missing_vars w with
  | _ :: _ =>
      print ("❌ Missing required environment variables: "
               +:+ String.concat ", " (missing_vars w)) ;;
      print "Please set these environment variables before running the application."
  | [] =>
      (if has_app_creds
       then print "✅ Using Azure application (service principal) authentication"
       else
         print "✅ Using DefaultAzureCredential authentication" ;;
         print "   Make sure you're logged in with 'az login' or have other valid credentials") ;;
      initialize_routing_agent w ;;
      try_finally
        (try_except
           (match gradio_interface w with
            | Some e => raise e
            | None => ret tt
            end ;;
            self <- get ;;
            put (set_demo self) ;;
            print "Launching Gradio interface..." ;;
            yield (LaunchInterface 8083) ;;
            match launch w with
            | Some e => raise e
            | None => ret tt
            end)
           (fun e => print ("Error in main application: " +:+ exn_msg e)))
        (print "Shutting down application..." ;;
         cleanup_routing_agent ;;
         print "Gradio application has been shut down.")
  end.

(** [main]: a fresh application object, run. *)
Definition main (w : world) : Gen.run RoutingAgentApp effect unit :=
  run w init.

(** Effects that reach out over the network. *)
Definition network_call (e : effect) : bool :=
  match e with
  | CreateRoutingAgent _ | CreateAzureAgent => true
  | _ => false
  end.

End AIFoundryHost.

(** ** The sports results agent: [sports_results_agent/agent.py] *)

Module SportsResultsAgent.
Import Py Gen Events.
Local Open Scope gen_scope.

(** [self.agent] is [None] until [initialize()] has run. *)
Record Agent := { name : string; instructions : string }.
Record OpenAIWebSearchAgent := { agent : option Agent }.

(** A call of the runner, as seen from outside. *)
Inductive call :=
| RunnerRun (a : Agent) (user_input : string).

(** The three-key dictionary every branch builds. *)
Definition response (is_task_complete require_user_input : bool)
    (content : value) : dict :=
  <["is_task_complete" := VBool is_task_complete]>
    (<["require_user_input" := VBool require_user_input]>
       {["content" := content]}).

Definition not_initialized : dict :=
  response false true
    (VStr "Agent not initialized. Please call initialize() first.").

Definition error_response (e : exn) : dict :=
  response false true (VStr ("Error processing request: " +:+ exn_msg e)).

(** Lines 53-96.  [runner_run] is what [Runner.run] does with the
    input: raise, or return a result whose [final_output] is given.
    The calls made are yielded as the trace. *)
Definition invoke (runner_run : string -> exn + value)
    (user_input : string) (session_id : option string)
  : gen OpenAIWebSearchAgent call dict :=
  self <- get ;;
  match agent self with
  | None => ret not_initialized
  | Some a =>
      try_except
        (yield (RunnerRun a user_input) ;;
         final_output <- await (runner_run user_input) ;;
         ret (response true false final_output))
        (fun e => ret (error_response e))
  end.

(** Lines 127-143: the body of the streaming loop. *)
Definition on_event (e : event) : gen OpenAIWebSearchAgent dict unit :=
  match (if has_type e "raw_response_event" then ev_data e else None) with
  | Some d =>
      match (if String.eqb (data_type_name d) "ResponseTextDeltaEvent"
             then data_delta d else None) with
      | Some delta_text =>
          if truthy delta_text
          then yield (response false false delta_text)
          else ret tt
      | None => ret tt
      end
  | None => ret tt
  end.

Definition completed : dict :=
  response true false (VStr "Task completed successfully.").

(** The dictionary yielded for the text of one delta. *)
Definition chunk (d : string) : dict := response false false (VStr d).

(** Lines 98-156.  [run_streamed] is what [Runner.run_streamed] does:
    raise, or give the events and the exception ending them, if any.
    The dictionaries are what the generator yields. *)
Definition stream (run_streamed : exn + (list event * option exn))
    (user_input : string) (session_id : option string)
  : gen OpenAIWebSearchAgent dict unit :=
  self <- get ;;
  match agent self with
  | None => yield not_initialized
  | Some a =>
      try_except
        (stream_result <- await run_streamed ;;
         for_each (fst stream_result) on_event ;;
         match snd stream_result with
         | Some e => raise e
         | None => ret tt
         end ;;
         yield completed)
        (fun e => yield (error_response e))
  end.

(** Lines 158-161. *)
Definition cleanup : gen OpenAIWebSearchAgent call unit :=
  put {| agent := None |}.

(** The flag under a key, when it is there and a [bool]. *)
Definition flag (d : dict) (key : string) : option bool :=
  match d !! key with
  | Some (VBool b) => Some b
  | _ => None
  end.

(** The agent that [initialize] builds (lines 40-44). *)
Definition sports_results_agent : Agent :=
  {| name := "Sports Results Agent";
     instructions :=
       "You are a helpful agent that searches the web for sports results." |}.

(** Lines 36-51.  [construct] is the exception that building the agent
    with its web search tool raises, if it does. *)
Definition initialize (construct : option exn)
  : gen OpenAIWebSearchAgent call unit :=
  try_except
    (match construct with
     | Some e => raise e
     | None => put {| agent := Some sports_results_agent |}
     end)
    (fun e => cleanup ;; raise e).

(** The delta that [stream] passes on for an event: the [delta] of a
    [ResponseTextDeltaEvent] inside a [raw_response_event], when it is
    true as a condition. *)
Definition truthy_delta (e : event) : option value :=
  match (if has_type e "raw_response_event" then ev_data e else None) with
  | Some d =>
      match (if String.eqb (data_type_name d) "ResponseTextDeltaEvent"
             then data_delta d else None) with
      | Some delta_text => if truthy delta_text then Some delta_text else None
      | None => None
      end
  | None => None
  end.

(** How [stream] ends: with the completion message, or with the error of
    the iteration. *)
Definition terminal (err : option exn) : dict :=
  match err with
  | None => completed
  | Some e => error_response e
  end.
End SportsResultsAgent.

(** ** Agent cards: the two [remote_agents/*/__main__.py] *)

Module AgentCards.

Record AgentCapabilities := { streaming : bool }.

Record AgentSkill := {
  skill_id : string;
  skill_name : string;
  skill_description : string;
  tags : list string;
  examples : list string
}.

Record AgentCard := {
  name : string;
  description : string;
  url : string;
  version : string;
  defaultInputModes : list string;
  defaultOutputModes : list string;
  capabilities : AgentCapabilities;
  skills : list AgentSkill
}.

(** What [main] hands to [uvicorn.run]: the application with its card
    and the address to bind. *)
Record server := {
  agent_card : AgentCard;
  bind_host : string;
  bind_port : Z
}.

Module SportsResults.
(** [sports_results_agent/__main__.py], lines 40-72. *)
Definition get_agent_card (host : string) (port : Z) : AgentCard :=
  let capabilities := {| streaming := true |} in
  let skill_mcp_tools :=
    {| skill_id := "sports_results_agent";
       skill_name := "Sports Results Agent";
       skill_description :=
         "Provides sports results from various sports leagues.  Include scores, who won, and other relevant information.";
       tags := ["mlb"; "nba"; "nascar"; "golf"; "colege football"];
       examples :=
         ["Show score for Pirates game last night";
          "What was the final score of the game 7 NBA finals and who won?";
          "Whow won the 2025 US Golf Open Championship and where was it played?"] |} in
  {| name := "SportsResultsAgent";
     description :=
       "This agent provides sports results for various sports leagues such as MLB, NBA, NASCAR, and Golf. ";
     url := "http://localhost:10001/";
     version := "1.0.0";
     defaultInputModes := ["text"];
     defaultOutputModes := ["text"];
     capabilities := capabilities;
     skills := [skill_mcp_tools] |}.

(** Lines 20-37; the options default to [localhost] and [10001]. *)
Definition main (host : string) (port : Z) : server :=
  {| agent_card := get_agent_card host port;
     bind_host := host;
     bind_port := port |}.
End SportsResults.

Module SportsNews.
(** [sports_news_agent/__main__.py], lines 40-72. *)
Definition get_agent_card (host : string) (port : Z) : AgentCard :=
  let capabilities := {| streaming := true |} in
  let skill_mcp_tools :=
    {| skill_id := "sports_news_agent";
       skill_name := "Sports News Agent";
       skill_description :=
         "Provides sports news from the Yahoo sports rss feeds. ";
       tags := ["mlb"; "nba"; "nascar"; "golf"; "colege football"];
       examples :=
         ["Show news for mlb (baseball)";
          "Fetch me the latest news for nascar";
          "Whats the latest news for golf"] |} in
  {| name := "SportsNewsAgent";
     description :=
       "This agent provides sports news for various sports leagues. ";
     url := "http://localhost:10002/";
     version := "1.0.0";
     defaultInputModes := ["text"];
     defaultOutputModes := ["text"];
     capabilities := capabilities;
     skills := [skill_mcp_tools] |}.

(** Lines 20-37; the options default to [localhost] and [10002]. *)
Definition main (host : string) (port : Z) : server :=
  {| agent_card := get_agent_card host port;
     bind_host := host;
     bind_port := port |}.
End SportsNews.
End AgentCards.

(** * Properties *)

(** ** Text: prefixes and lengths *)

Lemma app_cons (c : Ascii.ascii) (s t : string) :
  String c s +:+ t = String c (s +:+ t).
Proof. reflexivity. Qed.

Lemma app_empty_r (s : string) : s +:+ "" = s.
Proof.
  induction s as [|c s IH]; [reflexivity | now rewrite app_cons, IH].
Qed.

Lemma app_assoc_str (s t u : string) : (s +:+ t) +:+ u = s +:+ (t +:+ u).
Proof.
  induction s as [|c s IH]; [reflexivity | now rewrite !app_cons, IH].
Qed.

Lemma length_app_str (s t : string) :
  String.length (s +:+ t) = String.length s + String.length t.
Proof.
  induction s as [|c s IH]; [reflexivity | rewrite app_cons; simpl; now rewrite IH].
Qed.

Lemma str_prefix_refl (s : string) : str_prefix s s.
Proof. exists ""%string. now rewrite app_empty_r. Qed.

Lemma str_prefix_app (s u : string) : str_prefix s (s +:+ u).
Proof. now exists u. Qed.

Lemma str_prefix_trans (s t u : string) :
  str_prefix s t -> str_prefix t u -> str_prefix s u.
Proof.
  intros [a ->] [b ->]. exists (a +:+ b). apply app_assoc_str.
Qed.

Lemma str_prefix_length (s t : string) :
  str_prefix s t -> String.length s <= String.length t.
Proof. intros [u ->]. rewrite length_app_str. lia. Qed.

(** ** Running generator code *)

Section GenFacts.
Import Py Gen.
Context {S Y : Type}.

Lemma bind_normal {A B} (m : gen S Y A) (k : A -> gen S Y B) (s s' : S)
    (ys : list Y) (a : A) :
  m s = Run ys s' (Normal a) ->
  bind m k s
  = Run (ys ++ yielded (k a s')) (final (k a s')) (outcome (k a s')).
Proof. intros H. unfold bind. now rewrite H. Qed.

Lemma bind_raise {A B} (m : gen S Y A) (k : A -> gen S Y B) (s s' : S)
    (ys : list Y) (e : exn) :
  m s = Run ys s' (Raise e) -> bind m k s = Run ys s' (Raise e).
Proof. intros H. unfold bind. now rewrite H. Qed.

Lemma run_eta {A} (r : run S Y A) :
  r = Run (yielded r) (final r) (outcome r).
Proof. now destruct r. Qed.
End GenFacts.

(** ** The OpenAI host agent *)

Section OpenAIHostFacts.
Import Py Gen Chat Events OpenAIHost.

Example deltas_hello :
  yielded (chat (inr {| sr_events := [text_delta "Hel"; text_delta "lo"];
                        sr_error := None;
                        sr_result := None;
                        sr_shown := "RunResultStreaming" |}))
  = [assistant "Hel"; assistant "Hello"].
Proof. reflexivity. Qed.

Example empty_stream :
  yielded (chat (inr {| sr_events := [];
                        sr_error := None;
                        sr_result := None;
                        sr_shown := "RunResultStreaming" |}))
  = [assistant placeholder].
Proof. reflexivity. Qed.

(** One event leaves the buffer alone, or appends to it and yields it,
    or raises without touching it. *)
Lemma on_event_cases (e : event) (acc : string) :
  on_event e acc = Run [] acc (Normal tt)
  \/ (exists s, on_event e acc
                = Run [assistant (acc +:+ s)] (acc +:+ s) (Normal tt))
  \/ (exists ex, on_event e acc = Run [] acc (Raise ex)).
Proof.
  destruct e as [es [t|] ed ec hi]; unfold on_event, print_run_item, bind;
    simpl; [|eauto].
  destruct (eq_lit t "run_item_stream_event"), hi; simpl; eauto;
    unfold dispatch, has_type; simpl;
    (destruct (eq_lit t "raw_response_event"), ed as [[dn dd dc]|]; simpl;
     [ unfold raw_response; simpl;
       destruct (String.eqb dn "ResponseTextDeltaEvent"), dd as [[s|b|tr sh]|],
         dc as [[s'|b'|tr' sh']|]; simpl;
       try destruct (negb (String.eqb s "")); try destruct b; try destruct tr;
       simpl; eauto
     | | | ];
     destruct (eq_lit t "agent_updated_stream_event"),
       ec as [[s|b|tr sh]|], es as [s'|]; simpl; eauto).
Qed.

(** The replies of the loop are the successive values of the buffer. *)
Lemma loop_grows (evs : list event) (acc : string) :
  exists texts,
    yielded (for_each evs on_event acc) = map assistant texts
    /\ grows_from acc texts
    /\ final (for_each evs on_event acc) = default acc (last texts).
Proof.
  revert acc. induction evs as [|e evs IH]; intros acc.
  - exists []. simpl. auto.
  - simpl.
    destruct (on_event_cases e acc) as [H | [[s H] | [ex H]]].
    + rewrite (bind_normal _ _ _ _ _ _ H). simpl. apply IH.
    + rewrite (bind_normal _ _ _ _ _ _ H). simpl.
      destruct (IH (acc +:+ s)) as (texts & Hy & Hg & Hf).
      exists ((acc +:+ s) :: texts). rewrite Hy, Hf. simpl.
      split; [reflexivity|]. split; [split; [apply str_prefix_app | exact Hg]|].
      rewrite (last_cons (acc +:+ s)). now destruct (last texts).
    + rewrite (bind_raise _ _ _ _ _ _ H). exists []. simpl. auto.
Qed.

(** The same for the whole iteration, whether or not it ends in an
    exception. *)
Lemma stream_events_grows (sr : stream_result) (acc : string) :
  exists texts,
    yielded (stream_events sr acc) = map assistant texts
    /\ grows_from acc texts
    /\ final (stream_events sr acc) = default acc (last texts).
Proof.
  destruct (loop_grows (sr_events sr) acc) as (texts & Hy & Hg & Hf).
  exists texts. unfold stream_events.
  destruct (for_each (sr_events sr) on_event acc) as [ys s' [[]|e]] eqn:Hfe;
    simpl in Hy, Hf.
  - rewrite (bind_normal _ _ _ _ _ _ Hfe).
    destruct (sr_error sr); simpl; rewrite app_nil_r; auto.
  - rewrite (bind_raise _ _ _ _ _ _ Hfe). simpl. auto.
Qed.

Lemma grows_from_all (texts : list string) (s : string) :
  grows_from s texts -> Forall (str_prefix s) texts.
Proof.
  revert s. induction texts as [|t texts IH]; intros s; simpl.
  - constructor.
  - intros [Hst Hg]. constructor; [exact Hst|].
    eapply Forall_impl; [apply (IH t Hg)|].
    intros u Hu. now apply str_prefix_trans with t.
Qed.

Lemma grows_from_lookup (texts : list string) (a : string) (i j : nat)
    (s t : string) :
  grows_from a texts -> i <= j ->
  texts !! i = Some s -> texts !! j = Some t -> str_prefix s t.
Proof.
  revert a i j. induction texts as [|x texts IH]; intros a i j Hg Hij Hi Hj.
  - discriminate.
  - destruct Hg as [_ Hg]. destruct i as [|i], j as [|j]; simpl in *.
    + injection Hi as <-. injection Hj as <-. apply str_prefix_refl.
    + injection Hi as <-.
      pose proof (grows_from_all _ _ Hg) as Hall.
      rewrite Forall_lookup in Hall. now apply (Hall j).
    + lia.
    + apply (IH x i j); auto. lia.
Qed.

(** The fallback yields at most one reply, leaves the buffer alone
    and lets no exception out. *)
Lemma fallback_quiet (sr : stream_result) (acc : string) :
  exists ms,
    fallback sr acc = Run ms acc (Normal tt)
    /\ (ms = [] \/ exists s, ms = [assistant s]).
Proof.
  unfold fallback, try_except, bind, await.
  destruct (sr_result sr) as [[e|v]|]; simpl; eauto.
  destruct (truthy v); simpl; eauto.
Qed.

(** The handler, spelled out for a call of the runner that returned. *)
Lemma inner_handler_returns (sr : stream_result) (acc : string) :
  outcome (try_except (stream_events sr) (fun _ => fallback sr) acc)
  = Normal tt.
Proof.
  unfold try_except.
  destruct (outcome (stream_events sr acc)) as [[]|e] eqn:Ho; simpl;
    [exact Ho|].
  destruct (fallback_quiet sr (final (stream_events sr acc))) as (ms & -> & _).
  reflexivity.
Qed.

(** The tail of the handler after a guarded block that returns. *)
Lemma after_guarded (guarded : handler unit) (sr : stream_result)
    (ys : list ChatMessage) (acc : string) :
  guarded "" = Run ys acc (Normal tt) ->
  try_except
    (sr <- await (inr sr) ;;
     put "" ;;
     guarded ;;
     accumulated_text <- get ;;
     if truthy (VStr accumulated_text) then ret tt
     else yield (assistant placeholder))%gen
    (fun e => yield (assistant error_reply)) ""
  = Run (ys ++ (if truthy (VStr acc) then [] else [assistant placeholder]))
        acc (Normal tt).
Proof.
  intros Hg. unfold try_except, bind, await, ret, put, get, yield. simpl.
  rewrite Hg. simpl. destruct (negb (String.eqb acc "")); reflexivity.
Qed.

(** The handler, spelled out for a call of the runner that returned. *)
Lemma chat_started (sr : stream_result) :
  let inner :=
    try_except (stream_events sr) (fun _ => fallback sr) "" in
  chat (inr sr)
  = Run (yielded inner
           ++ (if truthy (VStr (final inner)) then []
               else [assistant placeholder]))
        (final inner) (Normal tt).
Proof.
  intros inner.
  pose proof (inner_handler_returns sr "") as Hin. fold inner in Hin.
  apply (after_guarded (try_except (stream_events sr) (fun _ => fallback sr))).
  fold inner. rewrite (run_eta inner) at 1. now rewrite Hin.
Qed.

(** When the iteration ends without an exception the last reply is the
    buffer, or the placeholder if the buffer is empty. *)
Lemma success_last_reply (sr : stream_result) :
  returns (aggregate sr) = true ->
  final (chat (inr sr)) = final (aggregate sr)
  /\ last (yielded (chat (inr sr)))
     = Some (assistant (if truthy (VStr (final (aggregate sr)))
                        then final (aggregate sr) else placeholder)).
Proof.
  unfold returns, aggregate. intros Hret.
  rewrite chat_started. simpl.
  assert (Hin : try_except (stream_events sr) (fun _ => fallback sr) ""
                = stream_events sr "").
  { unfold try_except.
    now destruct (outcome (stream_events sr "")). }
  rewrite Hin. split; [reflexivity|].
  destruct (stream_events_grows sr "") as (texts & Hy & _ & Hf).
  rewrite Hy, Hf.
  destruct (String.eqb (default "" (last texts)) "") eqn:He; simpl.
  - now rewrite last_snoc.
  - rewrite app_nil_r, fmap_last.
    destruct (last texts) as [t|]; [reflexivity | discriminate].
Qed.

(** A text delta appends its payload, and yields unless the payload is
    empty. *)
Lemma on_event_delta (e : event) (d acc : string) :
  delta_payload e = Some d ->
  on_event e acc
  = if String.eqb d "" then Run [] acc (Normal tt)
    else Run [assistant (acc +:+ d)] (acc +:+ d) (Normal tt).
Proof.
  destruct e as [es [[ts|b|tr sh]|] [[dn dd dc]|] ec hi];
    unfold delta_payload, has_type; simpl; try discriminate;
    try (destruct (String.eqb ts "raw_response_event"); discriminate).
  destruct (String.eqb ts "raw_response_event") eqn:Ht; simpl;
    [|discriminate].
  apply String.eqb_eq in Ht. subst ts.
  destruct (String.eqb dn "ResponseTextDeltaEvent") eqn:Hn; simpl;
    [|discriminate].
  destruct dd as [[s|b|tr sh]|]; try discriminate.
  intros [= ->].
  unfold on_event, print_run_item, dispatch, has_type, raw_response, bind.
  simpl. rewrite Hn. simpl. destruct (String.eqb d ""); reflexivity.
Qed.

Lemma loop_deltas (evs : list event) (ds : list string) (acc : string) :
  Forall2 (fun e d => delta_payload e = Some d) evs ds ->
  final (for_each evs on_event acc) = acc +:+ joined ds
  /\ outcome (for_each evs on_event acc) = Normal tt.
Proof.
  intros H. revert acc.
  induction H as [|e d evs ds He _ IH]; intros acc; simpl.
  - now rewrite app_empty_r.
  - pose proof (on_event_delta e d acc He) as Hon.
    destruct (String.eqb d "") eqn:Hd;
      rewrite (bind_normal _ _ _ _ _ _ Hon); simpl.
    + apply String.eqb_eq in Hd. subst d. apply IH.
    + rewrite <- app_assoc_str. apply IH.
Qed.

(** When the stream has been consumed and nothing has been
    accumulated, the last reply of the handler is the fixed placeholder
    'No response received from the agent.'; and when the stream ends
    without an exception the last reply, which is the one the caller is
    left with, is never the empty string. *)
Theorem placeholder_when_nothing_accumulated (sr : stream_result) :
  (final (chat (inr sr)) = "" ->
   last (yielded (chat (inr sr))) = Some (assistant placeholder))
  /\ (returns (aggregate sr) = true ->
      exists text,
        last (yielded (chat (inr sr))) = Some (assistant text)
        /\ text <> "").
Proof.
  split.
  - rewrite chat_started. simpl. intros ->. simpl. now rewrite last_snoc.
  - intros Hret. destruct (success_last_reply sr Hret) as [_ ->].
    eexists. split; [reflexivity|]. unfold truthy.
    destruct (String.eqb (final (aggregate sr)) "") eqn:He; simpl.
    + intros E. discriminate E.
    + intros E. rewrite E in He. discriminate He.
Qed.

Lemma placeholder_when_nothing_accumulated_witness :
  let sr := {| sr_events := []; sr_error := None; sr_result := None;
               sr_shown := "RunResultStreaming" |} in
  last (yielded (chat (inr sr))) = Some (assistant placeholder)
  /\ exists text,
       last (yielded (chat (inr sr))) = Some (assistant text) /\ text <> "".
Proof.
  intros sr. split.
  - apply (proj1 (placeholder_when_nothing_accumulated sr)). reflexivity.
  - apply (proj2 (placeholder_when_nothing_accumulated sr)). reflexivity.
Defined.

(** C5: the replies yielded by the aggregation loop, for events of any
    shapes and whether or not the iteration ends in an exception, are
    all texts, and of two of them the earlier is an initial part of the
    later and is not longer. *)
Theorem replies_grow (sr : stream_result) (i j : nat) (m m' : ChatMessage) :
  i <= j ->
  yielded (aggregate sr) !! i = Some m ->
  yielded (aggregate sr) !! j = Some m' ->
  exists s t,
    m = assistant s /\ m' = assistant t
    /\ str_prefix s t /\ String.length s <= String.length t.
Proof.
  intros Hij Hi Hj. unfold aggregate in *.
  destruct (stream_events_grows sr "") as (texts & Hy & Hg & _).
  rewrite Hy in Hi, Hj.
  rewrite list_lookup_fmap in Hi, Hj.
  destruct (texts !! i) as [s|] eqn:Hs; [|discriminate].
  destruct (texts !! j) as [t|] eqn:Ht; [|discriminate].
  injection Hi as <-. injection Hj as <-.
  exists s, t.
  assert (Hp : str_prefix s t) by (eapply grows_from_lookup; eauto).
  auto using str_prefix_length.
Qed.

Lemma replies_grow_witness :
  exists s t,
    assistant "Hel" = assistant s /\ assistant "Hello" = assistant t
    /\ str_prefix s t /\ String.length s <= String.length t.
Proof.
  apply (replies_grow
           {| sr_events := [text_delta "Hel"; text_delta "lo"];
              sr_error := None; sr_result := None;
              sr_shown := "RunResultStreaming" |} 0 1);
    [lia | reflexivity | reflexivity].
Defined.

(** *** Events of unknown shape *)

(** [for] over a list from which one element is left out, when the
    body does nothing at that element. *)
Lemma for_each_skip (pre post : list event) (e : event) :
  (forall acc, on_event e acc = Run [] acc (Normal tt)) ->
  forall acc,
    for_each (pre ++ e :: post) on_event acc
    = for_each (pre ++ post) on_event acc.
Proof.
  intros He. induction pre as [|x pre IH]; intros acc; simpl.
  - rewrite (bind_normal _ _ _ _ _ _ (He acc)).
    now destruct (for_each post on_event acc).
  - unfold bind. destruct (outcome (on_event x acc)); [|reflexivity].
    now rewrite IH.
Qed.

(** An event of unknown shape that has a [type] attribute (and an
    [item] attribute if it says it is a run item event) is passed
    over. *)
Lemma unknown_event_with_type_skipped (e : event) (t : value) (acc : string) :
  unknown_shape e = true ->
  ev_type e = Some t ->
  (eq_lit t "run_item_stream_event" = true -> ev_has_item e = true) ->
  on_event e acc = Run [] acc (Normal tt).
Proof.
  unfold unknown_shape, on_event, print_run_item, dispatch.
  intros Hu Ht Hitem. rewrite Ht.
  destruct (if has_type e "raw_response_event" then ev_data e else None);
    [discriminate|].
  destruct (eq_lit t "run_item_stream_event");
    [rewrite Hitem by reflexivity|];
    unfold bind; simpl;
    destruct (has_type e "agent_updated_stream_event"); simpl; trivial;
    destruct (ev_content e) as [[s|b|tr sh]|]; try discriminate;
    destruct (ev_str e); try discriminate; reflexivity.
Qed.

(** With such an event anywhere in the stream the handler replies as it
    does with the event taken out. *)
Lemma unknown_event_with_type_removed (pre post : list event) (e : event)
    (t : value) (err : option exn) (result : option (exn + value))
    (shown : string) :
  unknown_shape e = true ->
  ev_type e = Some t ->
  (eq_lit t "run_item_stream_event" = true -> ev_has_item e = true) ->
  chat (inr {| sr_events := pre ++ e :: post; sr_error := err;
               sr_result := result; sr_shown := shown |})
  = chat (inr {| sr_events := pre ++ post; sr_error := err;
                 sr_result := result; sr_shown := shown |}).
Proof.
  intros Hu Ht Hitem. rewrite !chat_started.
  assert (E : forall acc,
             stream_events {| sr_events := pre ++ e :: post; sr_error := err;
                              sr_result := result; sr_shown := shown |} acc
             = stream_events {| sr_events := pre ++ post; sr_error := err;
                                sr_result := result; sr_shown := shown |} acc).
  { intros acc. unfold stream_events, bind. simpl.
    rewrite for_each_skip; [reflexivity|].
    intros acc'. now apply unknown_event_with_type_skipped with t. }
  unfold try_except. rewrite !E. reflexivity.
Qed.

(** C4, at an object without a [type] attribute: the unguarded
    [event.type] of line 54 raises [AttributeError], the loop is left,
    the delta after the unknown event is never appended, and the last
    reply is [str(stream_result)] instead of the text. *)
Theorem unknown_event_without_type_aborts :
  let unknown := {| ev_str := None; ev_type := None; ev_data := None;
                    ev_content := None; ev_has_item := false |} in
  let stream_of evs := {| sr_events := evs; sr_error := None;
                          sr_result := None;
                          sr_shown := "RunResultStreaming" |} in
  let with_unknown := stream_of [text_delta "Hel"; unknown; text_delta "lo"] in
  let without := stream_of [text_delta "Hel"; text_delta "lo"] in
  unknown_shape unknown = true
  /\ outcome (aggregate with_unknown) = Raise (AttributeError "type")
  /\ final (aggregate with_unknown) = "Hel"
  /\ final (aggregate without) = "Hello"
  /\ yielded (chat (inr with_unknown))
     = [assistant "Hel"; assistant "RunResultStreaming"]
  /\ yielded (chat (inr without)) = [assistant "Hel"; assistant "Hello"].
Proof. repeat split. Qed.

(** *** The chat boundary *)

(** The guarded block of the handler: the replies of the loop, then at
    most one reply of the fallback. *)
Lemma guarded_replies (sr : stream_result) :
  exists texts ms,
    yielded (try_except (stream_events sr) (fun _ => fallback sr) "")
    = map assistant texts ++ ms
    /\ final (try_except (stream_events sr) (fun _ => fallback sr) "")
       = default "" (last texts)
    /\ (ms = [] \/ exists s, ms = [assistant s]).
Proof.
  destruct (stream_events_grows sr "") as (texts & Hy & _ & Hf).
  unfold try_except.
  destruct (outcome (stream_events sr "")).
  - exists texts, []. rewrite app_nil_r. auto.
  - destruct (fallback_quiet sr (final (stream_events sr "")))
      as (ms & -> & Hms).
    exists texts, ms. simpl. rewrite Hy. auto.
Qed.

(** The handler returns, has replied at least once, and every reply is
    a text of the assistant. *)
Lemma chat_replies (x : exn + stream_result) :
  returns (chat x) = true
  /\ yielded (chat x) <> []
  /\ Forall (fun m => exists s, m = assistant s) (yielded (chat x)).
Proof.
  destruct x as [e|sr].
  - repeat split; [discriminate|]. repeat constructor. now eexists.
  - rewrite chat_started.
    destruct (guarded_replies sr) as (texts & ms & -> & -> & Hms).
    simpl. split; [reflexivity|]. split.
    + destruct texts as [|t texts]; simpl; [|discriminate].
      destruct ms; simpl; discriminate.
    + rewrite !Forall_app. split; [split|].
      * apply Forall_forall. intros m Hm.
        apply list_elem_of_fmap in Hm as (s & -> & _). now eexists.
      * destruct Hms as [-> | [s ->]]; repeat constructor. now eexists.
      * destruct (String.eqb (default "" (last texts)) ""); simpl;
          repeat constructor. now eexists.
Qed.
End OpenAIHostFacts.

(** ** The sports results agent *)

Section SportsResultsAgentFacts.
Import Py Gen Events SportsResultsAgent.

Lemma stream_on_event_delta (e : event) (d : string)
    (self : OpenAIWebSearchAgent) :
  delta_payload e = Some d ->
  on_event e self
  = if String.eqb d "" then Run [] self (Normal tt)
    else Run [chunk d] self (Normal tt).
Proof.
  unfold delta_payload, on_event.
  destruct (if has_type e "raw_response_event" then ev_data e else None)
    as [dt|]; [|discriminate].
  destruct (if String.eqb (data_type_name dt) "ResponseTextDeltaEvent"
            then data_delta dt else None) as [[s|b|tr sh]|];
    try discriminate.
  intros [= ->]. simpl. now destruct (String.eqb d "").
Qed.

Lemma stream_loop_deltas (evs : list event) (ds : list string)
    (self : OpenAIWebSearchAgent) :
  Forall2 (fun e d => delta_payload e = Some d) evs ds ->
  for_each evs on_event self
  = Run (map chunk (filter (fun d : string => d <> ""%string) ds))
        self (Normal tt).
Proof.
  intros H. induction H as [|e d evs ds He _ IH]; simpl; [reflexivity|].
  pose proof (stream_on_event_delta e d self He) as Hon.
  rewrite filter_cons.
  destruct (String.eqb d "") eqn:Hd;
    rewrite (bind_normal _ _ _ _ _ _ Hon), IH; simpl.
  - apply String.eqb_eq in Hd. subst d.
    destruct (decide (""%string <> ""%string)); [congruence | reflexivity].
  - apply String.eqb_neq in Hd.
    destruct (decide (d <> ""%string)); [reflexivity | contradiction].
Qed.

(** [stream] for an initialised agent whose loop goes through. *)
Lemma stream_completes (evs : list event) (ys : list dict) (a : Agent)
    (user_input : string) (session_id : option string) :
  for_each evs on_event {| agent := Some a |}
  = Run ys {| agent := Some a |} (Normal tt) ->
  stream (inr (evs, None)) user_input session_id {| agent := Some a |}
  = Run (ys ++ [completed]) {| agent := Some a |} (Normal tt).
Proof.
  intros Hloop.
  unfold stream, try_except, bind, await, ret, get, yield, raise. simpl.
  rewrite Hloop. reflexivity.
Qed.
End SportsResultsAgentFacts.

(** ** Text deltas, end to end *)

Section TextDeltas.
Import Py Gen Chat Events.
Import OpenAIHost SportsResultsAgent.

Lemma flag_response (c r : bool) (v : value) :
  flag (response c r v) "is_task_complete" = Some c
  /\ flag (response c r v) "require_user_input" = Some r
  /\ response c r v !! "content" = Some v.
Proof.
  unfold flag, response. repeat split.
Qed.

(** C3: for a stream of text deltas only, which ends without an
    exception, the buffer of the host handler ends as the
    concatenation of the payloads in their order, and its last reply is
    that text (the placeholder if it is empty); the remote agent's
    [stream] yields one dictionary per non-empty payload, in order, then
    the completion dictionary, and [is_task_complete] is true in the
    last dictionary yielded and in no other. *)
Theorem text_deltas_concatenate (evs : list event) (ds : list string)
    (result : option (exn + value)) (shown : string)
    (a : Agent) (user_input : string) (session_id : option string) :
  Forall2 (fun e d => delta_payload e = Some d) evs ds ->
  let sr := {| sr_events := evs; sr_error := None;
               sr_result := result; sr_shown := shown |} in
  let dicts :=
    yielded (stream (inr (evs, None)) user_input session_id
               {| agent := Some a |}) in
  final (chat (inr sr)) = joined ds
  /\ last (yielded (chat (inr sr)))
     = Some (assistant (if String.eqb (joined ds) "" then placeholder
                        else joined ds))
  /\ dicts = map chunk (filter (fun d : string => d <> ""%string) ds)
               ++ [completed]
  /\ forall i d, dicts !! i = Some d ->
       (flag d "is_task_complete" = Some true <-> S i = length dicts).
Proof.
  intros H sr dicts.
  assert (Hagg : final (aggregate sr) = joined ds
                 /\ returns (aggregate sr) = true).
  { unfold aggregate, stream_events, returns. simpl.
    destruct (loop_deltas evs ds "" H) as [Hf Ho].
    destruct (for_each evs OpenAIHost.on_event "") as [ys s' o] eqn:Hfe.
    simpl in Hf, Ho. subst s' o.
    rewrite (bind_normal _ _ _ _ _ _ Hfe). simpl. auto. }
  destruct Hagg as [Hf Hret].
  destruct (success_last_reply sr Hret) as [Hfc Hl].
  rewrite Hfc, Hl, Hf.
  assert (Hd : dicts = map chunk (filter (fun d : string => d <> ""%string) ds)
                         ++ [completed]).
  { unfold dicts.
    now rewrite (stream_completes _ _ _ _ _ (stream_loop_deltas evs ds _ H)). }
  split; [reflexivity|].
  split; [unfold truthy; now destruct (String.eqb (joined ds) "")|].
  split; [exact Hd|].
  intros i d. rewrite Hd, length_app. simpl. intros Hlook. split.
  - intros Hflag.
    apply lookup_app_Some in Hlook as [Hin | [Hge Hlast]].
    + rewrite list_lookup_fmap in Hin.
      destruct (filter _ ds !! i) as [x|]; [|discriminate].
      injection Hin as <-. unfold chunk in Hflag.
      destruct (flag_response false false (VStr x)) as [E _].
      congruence.
    + destruct (i - length (map chunk (filter (fun d0 : string => d0 <> ""%string) ds)))
        as [|n] eqn:Hn; [lia | discriminate].
  - intros Hi.
    rewrite lookup_app_r in Hlook by lia.
    replace (i - _) with 0 in Hlook by lia.
    injection Hlook as <-. apply flag_response.
Qed.

Lemma text_deltas_concatenate_witness :
  let evs := [text_delta "Hel"; text_delta "lo"] in
  let sr := {| sr_events := evs; sr_error := None;
               sr_result := None; sr_shown := "RunResultStreaming" |} in
  final (chat (inr sr)) = "Hello"
  /\ last (yielded (chat (inr sr))) = Some (assistant "Hello").
Proof.
  intros evs sr.
  destruct (text_deltas_concatenate evs ["Hel"; "lo"] None
              "RunResultStreaming"
              {| name := "Sports Results Agent";
                 instructions := "You are a helpful agent that searches the web for sports results." |}
              "Show score for Pirates game last night" None)
    as (Hf & Hl & _).
  - repeat constructor.
  - split; [exact Hf | exact Hl].
Defined.
End TextDeltas.

(** ** The AI Foundry host agent *)

Section AIFoundryHostFacts.
Import Py Gen Chat AIFoundryHost.

(** The four ways through the chat handler. *)
Lemma handler_not_initialized (message : string) (self : RoutingAgentApp) :
  routing_agent self = None ->
  get_response_from_agent message self
  = Run [assistant not_initialized] self (Normal tt).
Proof.
  intros H. unfold get_response_from_agent, bind, get. simpl. now rewrite H.
Qed.

Lemma handler_raises (message : string) (self : RoutingAgentApp)
    (agent : RoutingAgent) (e : exn) :
  routing_agent self = Some agent ->
  process_user_message agent message = inl e ->
  get_response_from_agent message self
  = Run [assistant processing; assistant (error_reply e)] self (Normal tt).
Proof.
  intros H Hp.
  unfold get_response_from_agent, try_except, bind, get, await. simpl.
  rewrite H. simpl. now rewrite Hp.
Qed.

Lemma handler_answers (message : string) (self : RoutingAgentApp)
    (agent : RoutingAgent) (response : value) :
  routing_agent self = Some agent ->
  process_user_message agent message = inr response ->
  get_response_from_agent message self
  = Run [assistant processing;
         if truthy response
         then {| role := "assistant"; content := response |}
         else assistant no_response]
        self (Normal tt).
Proof.
  intros H Hp.
  unfold get_response_from_agent, try_except, bind, get, await. simpl.
  rewrite H. simpl. rewrite Hp. simpl. now destruct (truthy response).
Qed.

(** The handler returns and its first reply is a text of the
    assistant. *)
Lemma handler_replies (message : string) (self : RoutingAgentApp) :
  let r := get_response_from_agent message self in
  returns r = true
  /\ exists text rest, yielded r = assistant text :: rest.
Proof.
  destruct (routing_agent self) as [agent|] eqn:H.
  - destruct (process_user_message agent message) as [e|v] eqn:Hp.
    + rewrite (handler_raises _ _ _ _ H Hp). simpl. eauto.
    + rewrite (handler_answers _ _ _ _ H Hp). simpl. eauto.
  - rewrite (handler_not_initialized _ _ H). simpl. eauto.
Qed.

(** *** Shutdown *)

(** C8: after one call of [cleanup_routing_agent] the reference to the
    routing agent is cleared, whatever the agent's own [cleanup()] did;
    a second call does nothing: no effect at all, and the object is as
    the first call left it. *)
Theorem cleanup_idempotent (self : RoutingAgentApp) :
  let once := cleanup_routing_agent self in
  let twice := cleanup_routing_agent (final once) in
  routing_agent (final once) = None
  /\ returns once = true
  /\ yielded twice = []
  /\ final twice = final once
  /\ returns twice = true.
Proof.
  destruct self as [[[pum [e|]]|] d]; repeat split.
Qed.

(** The release work itself is done once for an initialised
    application and not at all otherwise. *)
Lemma cleanup_releases_once (self : RoutingAgentApp) :
  count_occ effect_eq_dec (yielded (cleanup_routing_agent self))
    RoutingAgentCleanup
  = match routing_agent self with Some _ => 1 | None => 0 end.
Proof.
  destruct self as [[[pum [e|]]|] d]; reflexivity.
Qed.

(** *** Start-up *)

(** The settings reported are the required ones that are unset or
    empty. *)
Lemma missing_vars_spec (w : world) (v : string) :
  In v (missing_vars w) <-> In v required_env_vars /\ getenv_set w v = false.
Proof.
  unfold missing_vars. rewrite filter_In, negb_true_iff. reflexivity.
Qed.

Lemma run_missing (w : world) (self : RoutingAgentApp) :
  missing_vars w <> [] ->
  run w self
  = Run [Print ("❌ Missing required environment variables: "
                  +:+ String.concat ", " (missing_vars w));
         Print "Please set these environment variables before running the application."]
        self (Normal tt).
Proof.
  intros H. unfold run. destruct (missing_vars w); [contradiction|].
  reflexivity.
Qed.

(** C7: when a required setting is absent from the environment, [run]
    prints the line that names the missing settings (exactly the
    required ones that are unset or empty, joined by a comma), prints
    the request to set them, and returns: the routing agent is not
    created, no network call is made, the interface is not launched. *)
Theorem missing_settings_stop_startup (w : world) (var : string) :
  In var required_env_vars ->
  environ w !! var = None ->
  yielded (main w)
  = [Print ("❌ Missing required environment variables: "
              +:+ String.concat ", " (missing_vars w));
     Print "Please set these environment variables before running the application."]
  /\ In var (missing_vars w)
  /\ (forall v, In v (missing_vars w)
                <-> In v required_env_vars /\ getenv_set w v = false)
  /\ Forall (fun e => network_call e = false) (yielded (main w))
  /\ routing_agent (final (main w)) = None.
Proof.
  intros Hreq Habsent.
  assert (Hin : In var (missing_vars w)).
  { apply missing_vars_spec. split; [exact Hreq|].
    unfold getenv_set. now rewrite Habsent. }
  assert (Hne : missing_vars w <> []).
  { intros E. rewrite E in Hin. exact Hin. }
  unfold main. rewrite (run_missing w init Hne). simpl.
  split; [reflexivity|]. split; [exact Hin|].
  split; [apply missing_vars_spec|].
  split; [|reflexivity]. repeat constructor.
Qed.

Lemma missing_settings_stop_startup_witness :
  let w := {| environ := {["AZURE_AI_AGENT_ENDPOINT" := "https://example.services.ai.azure.com"]};
              create := inl (Exn "RuntimeError" "unreachable");
              create_agent := inl (Exn "RuntimeError" "unreachable");
              gradio_interface := None;
              launch := None |} in
  yielded (main w)
  = [Print "❌ Missing required environment variables: AZURE_AI_AGENT_MODEL_DEPLOYMENT_NAME";
     Print "Please set these environment variables before running the application."].
Proof.
  intros w.
  apply (missing_settings_stop_startup w
           "AZURE_AI_AGENT_MODEL_DEPLOYMENT_NAME");
    [simpl; auto | reflexivity].
Defined.

Example both_settings_missing :
  yielded (main {| environ := ∅;
                   create := inl (Exn "RuntimeError" "unreachable");
                   create_agent := inl (Exn "RuntimeError" "unreachable");
                   gradio_interface := None;
                   launch := None |})
  = [Print "❌ Missing required environment variables: AZURE_AI_AGENT_ENDPOINT, AZURE_AI_AGENT_MODEL_DEPLOYMENT_NAME";
     Print "Please set these environment variables before running the application."].
Proof. reflexivity. Qed.
End AIFoundryHostFacts.

(** ** The chat boundary of the two host agents *)

Section ChatBoundary.
Import Py Gen Chat Events.

(** C2, as the code has it: both handlers return, with at least one
    reply, for every input; every reply of the OpenAI handler and the
    first reply of the AI Foundry handler is a text of the assistant.
    An exception of [Runner.run_streamed] (OpenAI) gives the fixed
    error reply and nothing else; an exception of
    [process_user_message] (AI Foundry) gives the progress note and
    then an error reply that carries the text of the exception.  An
    exception that ends the iteration over the events (OpenAI) is taken
    by the inner handler: the replies are then those the loop had
    yielded, followed by the reply of the fallback ([str] of the final
    result when [result()] returns one that is true as a condition,
    nothing when [result()] raises or returns one that is false,
    [str(stream_result)] when there is no [result] attribute), followed
    by the placeholder when nothing was accumulated; the fixed error
    reply is not added. *)
Theorem chat_boundary :
  (forall x : exn + OpenAIHost.stream_result,
      returns (OpenAIHost.chat x) = true
      /\ yielded (OpenAIHost.chat x) <> []
      /\ Forall (fun m => role m = "assistant"%string /\ textual m = true)
                (yielded (OpenAIHost.chat x)))
  /\ (forall e : exn,
         yielded (OpenAIHost.chat (inl e))
         = [assistant OpenAIHost.error_reply])
  /\ (forall (message : string) (self : AIFoundryHost.RoutingAgentApp),
         let r := AIFoundryHost.get_response_from_agent message self in
         returns r = true
         /\ (exists text rest, yielded r = assistant text :: rest)
         /\ forall agent e,
             AIFoundryHost.routing_agent self = Some agent ->
             AIFoundryHost.process_user_message agent message = inl e ->
             yielded r = [assistant AIFoundryHost.processing;
                          assistant (AIFoundryHost.error_reply e)])
  /\ (forall (sr : OpenAIHost.stream_result) (e : exn),
         outcome (OpenAIHost.aggregate sr) = Raise e ->
         yielded (OpenAIHost.chat (inr sr))
         = yielded (OpenAIHost.aggregate sr)
             ++ match OpenAIHost.sr_result sr with
                | Some (inr final_result) =>
                    if truthy final_result
                    then [assistant (str final_result)]
                    else []
                | Some (inl _) => []
                | None => [assistant (OpenAIHost.sr_shown sr)]
                end
             ++ (if String.eqb (final (OpenAIHost.aggregate sr)) ""
                 then [assistant OpenAIHost.placeholder]
                 else [])).
Proof.
  split; [|split; [|split]].
  - intros x. destruct (chat_replies x) as (Hr & Hne & Hall).
    split; [exact Hr|]. split; [exact Hne|].
    eapply Forall_impl; [exact Hall|].
    intros m [s ->]. split; reflexivity.
  - reflexivity.
  - intros message self r.
    destruct (handler_replies message self) as [Hr Hy].
    split; [exact Hr|]. split; [exact Hy|].
    intros agent e Ha Hp. unfold r.
    now rewrite (handler_raises _ _ _ _ Ha Hp).
  - intros sr e Hraise. rewrite chat_started.
    set (reply := match OpenAIHost.sr_result sr with
                  | Some (inr final_result) =>
                      if truthy final_result
                      then [assistant (str final_result)]
                      else []
                  | Some (inl _) => []
                  | None => [assistant (OpenAIHost.sr_shown sr)]
                  end).
    assert (Hinner :
      try_except (OpenAIHost.stream_events sr)
        (fun _ => OpenAIHost.fallback sr) ""
      = Run (yielded (OpenAIHost.aggregate sr) ++ reply)
            (final (OpenAIHost.aggregate sr)) (Normal tt)).
    { unfold try_except at 1. fold (OpenAIHost.aggregate sr). rewrite Hraise.
      unfold reply, OpenAIHost.fallback, try_except, bind, await.
      destruct (OpenAIHost.sr_result sr) as [[e'|v]|]; simpl;
        [reflexivity | destruct (truthy v); reflexivity | reflexivity]. }
    rewrite Hinner. cbn [yielded final truthy]. rewrite <- app_assoc.
    now destruct (String.eqb (final (OpenAIHost.aggregate sr)) "").
Qed.

Lemma chat_boundary_witness :
  let agent :=
    {| AIFoundryHost.process_user_message :=
         fun _ => inl (Exn "RuntimeError" "thread run failed");
       AIFoundryHost.cleanup := None |} in
  let self := {| AIFoundryHost.routing_agent := Some agent;
                 AIFoundryHost.demo := true |} in
  let lost := Exn "RuntimeError" "connection lost" in
  let sr := {| OpenAIHost.sr_events := [text_delta "Hi"];
               OpenAIHost.sr_error := Some lost;
               OpenAIHost.sr_result := Some (inr (VStr "Hi there"));
               OpenAIHost.sr_shown := "RunResultStreaming" |} in
  yielded (AIFoundryHost.get_response_from_agent "Show news for mlb" self)
  = [assistant AIFoundryHost.processing;
     assistant (AIFoundryHost.error_reply
                  (Exn "RuntimeError" "thread run failed"))]
  /\ yielded (OpenAIHost.chat (inr sr))
     = [assistant "Hi"; assistant "Hi there"].
Proof.
  intros agent self lost sr.
  destruct chat_boundary as (_ & _ & H & Hstream).
  destruct (H "Show news for mlb"%string self) as (_ & _ & Hraise).
  split.
  - apply (Hraise agent); reflexivity.
  - apply (Hstream sr lost). reflexivity.
Defined.

(** C2 as stated does not hold of the OpenAI handler: an exception
    raised by the event stream is caught by the inner handler and is
    not made into an error reply.  When [stream_result.result()] raises
    too, the replies are those of the run that ended well; when there
    is no [result] attribute, the last reply is [str(stream_result)]. *)
Lemma stream_exception_gives_no_error_reply :
  let lost := Exn "RuntimeError" "connection lost" in
  let stream_of err result :=
    {| OpenAIHost.sr_events := [text_delta "Hi"];
       OpenAIHost.sr_error := err;
       OpenAIHost.sr_result := result;
       OpenAIHost.sr_shown := "RunResultStreaming" |} in
  outcome (OpenAIHost.aggregate (stream_of (Some lost) (Some (inl lost))))
  = Raise lost
  /\ yielded (OpenAIHost.chat (inr (stream_of (Some lost) (Some (inl lost)))))
     = [assistant "Hi"]
  /\ yielded (OpenAIHost.chat (inr (stream_of None (Some (inl lost)))))
     = [assistant "Hi"]
  /\ yielded (OpenAIHost.chat (inr (stream_of (Some lost) None)))
     = [assistant "Hi"; assistant "RunResultStreaming"]
  /\ ~ In (assistant OpenAIHost.error_reply)
          (yielded (OpenAIHost.chat
                      (inr (stream_of (Some lost) (Some (inl lost)))))).
Proof.
  repeat split. simpl. intros [E | []]. discriminate E.
Qed.
End ChatBoundary.

(** ** The non-streaming invocation of the sports results agent *)

Section InvokeFacts.
Import Py Gen SportsResultsAgent.

Lemma dom_response (c r : bool) (v : value) :
  dom (response c r v)
  = ({["is_task_complete"; "require_user_input"; "content"]} : gset string).
Proof.
  unfold response. rewrite !dom_insert_L, dom_singleton_L. set_solver.
Qed.

(** The three ways through [invoke]. *)
Lemma invoke_not_initialized (runner_run : string -> exn + value)
    (user_input : string) (session_id : option string)
    (self : OpenAIWebSearchAgent) :
  agent self = None ->
  invoke runner_run user_input session_id self
  = Run [] self (Normal not_initialized).
Proof.
  intros H. unfold invoke, bind, get. simpl. now rewrite H.
Qed.

Lemma invoke_success (runner_run : string -> exn + value)
    (user_input : string) (session_id : option string)
    (self : OpenAIWebSearchAgent) (a : Agent) (final_output : value) :
  agent self = Some a ->
  runner_run user_input = inr final_output ->
  invoke runner_run user_input session_id self
  = Run [RunnerRun a user_input] self
        (Normal (response true false final_output)).
Proof.
  intros H Hr. unfold invoke, try_except, bind, get, await. simpl.
  rewrite H. simpl. now rewrite Hr.
Qed.

Lemma invoke_failure (runner_run : string -> exn + value)
    (user_input : string) (session_id : option string)
    (self : OpenAIWebSearchAgent) (a : Agent) (e : exn) :
  agent self = Some a ->
  runner_run user_input = inl e ->
  invoke runner_run user_input session_id self
  = Run [RunnerRun a user_input] self (Normal (error_response e)).
Proof.
  intros H Hr. unfold invoke, try_except, bind, get, await. simpl.
  rewrite H. simpl. now rewrite Hr.
Qed.

(** C6 as stated does not hold: when the run raises, [invoke] does not
    fail.  It returns a dictionary whose content is the text of the
    cause; no exception leaves it and no address is recorded.  And an
    agent that was never initialised makes no attempt at all. *)
Lemma invoke_failure_is_returned :
  let cause := Exn "APIConnectionError" "Connection error." in
  let a := {| name := "Sports Results Agent";
              instructions := "You are a helpful agent that searches the web for sports results." |} in
  let failed :=
    invoke (fun _ => inl cause) "Show score for Pirates game last night"
      None {| agent := Some a |} in
  let idle :=
    invoke (fun _ => inl cause) "Show score for Pirates game last night"
      None {| agent := None |} in
  outcome failed
  = Normal (response false true
              (VStr "Error processing request: Connection error."))
  /\ (forall e, outcome failed <> Raise e)
  /\ yielded idle = [].
Proof. repeat split. intros e. discriminate. Qed.

(** C6, as the code has it: [invoke] calls [Runner.run] once when the
    agent is initialised and not at all otherwise, never a second time,
    and always returns a dictionary: the final output marked complete
    when the run returns, and when the run raises the text 'Error
    processing request: ' followed by the text of the exception,
    marked as needing user input. *)
Theorem invoke_single_attempt (runner_run : string -> exn + value)
    (user_input : string) (session_id : option string)
    (self : OpenAIWebSearchAgent) :
  let r := invoke runner_run user_input session_id self in
  yielded r = match agent self with
              | Some a => [RunnerRun a user_input]
              | None => []
              end
  /\ final r = self
  /\ outcome r
     = Normal match agent self, runner_run user_input with
              | None, _ => not_initialized
              | Some _, inr final_output => response true false final_output
              | Some _, inl e =>
                  response false true
                    (VStr ("Error processing request: " +:+ exn_msg e))
              end.
Proof.
  destruct (agent self) as [a|] eqn:Ha.
  - destruct (runner_run user_input) as [e|v] eqn:Hr.
    + now rewrite (invoke_failure _ _ _ _ _ _ Ha Hr).
    + now rewrite (invoke_success _ _ _ _ _ _ Ha Hr).
  - now rewrite (invoke_not_initialized _ _ _ _ Ha).
Qed.

(** C9: whichever way [invoke] goes, it returns a dictionary whose keys
    are exactly [is_task_complete], [require_user_input] and [content];
    the first flag is the negation of the second, and it is true
    exactly when the agent is initialised and the run returned. *)
Theorem invoke_dictionary (runner_run : string -> exn + value)
    (user_input : string) (session_id : option string)
    (self : OpenAIWebSearchAgent) :
  exists (d : dict) (complete input_required : bool),
    outcome (invoke runner_run user_input session_id self) = Normal d
    /\ dom d
       = ({["is_task_complete"; "require_user_input"; "content"]}
            : gset string)
    /\ flag d "is_task_complete" = Some complete
    /\ flag d "require_user_input" = Some input_required
    /\ complete = negb input_required
    /\ (complete = true
        <-> exists a final_output,
              agent self = Some a
              /\ runner_run user_input = inr final_output).
Proof.
  destruct (agent self) as [a|] eqn:Ha.
  - destruct (runner_run user_input) as [e|v] eqn:Hr.
    + rewrite (invoke_failure _ _ _ _ _ _ Ha Hr).
      exists (error_response e), false, true. simpl.
      split; [reflexivity|]. split; [apply dom_response|].
      repeat split; try discriminate.
      intros (a' & v' & _ & Hv). discriminate Hv.
    + rewrite (invoke_success _ _ _ _ _ _ Ha Hr).
      exists (response true false v), true, false. simpl.
      split; [reflexivity|]. split; [apply dom_response|].
      repeat split. eauto.
  - rewrite (invoke_not_initialized _ _ _ _ Ha).
    exists not_initialized, false, true. simpl.
    split; [reflexivity|]. split; [apply dom_response|].
    repeat split; try discriminate.
    intros (a' & v' & Ha' & _). discriminate Ha'.
Qed.
End InvokeFacts.

(** ** Agent cards *)

Section AgentCardFacts.
Import AgentCards.

(** C10: whatever host and port are passed, the card of the sports
    results agent gives 'http://localhost:10001/' as its address and
    the card of the sports news agent 'http://localhost:10002/', while
    the server is bound to the host and port passed. *)
Theorem agent_card_url_fixed (host : string) (port : Z) :
  url (SportsResults.get_agent_card host port) = "http://localhost:10001/"
  /\ url (SportsNews.get_agent_card host port) = "http://localhost:10002/"
  /\ url (agent_card (SportsResults.main host port))
     = "http://localhost:10001/"
  /\ url (agent_card (SportsNews.main host port))
     = "http://localhost:10002/"
  /\ bind_host (SportsResults.main host port) = host
  /\ bind_port (SportsResults.main host port) = port
  /\ bind_host (SportsNews.main host port) = host
  /\ bind_port (SportsNews.main host port) = port.
Proof. repeat split. Qed.

Example card_of_another_address :
  let s := SportsResults.main "0.0.0.0" 8080%Z in
  url (agent_card s) = "http://localhost:10001/"
  /\ bind_host s = "0.0.0.0" /\ bind_port s = 8080%Z.
Proof. repeat split. Qed.
End AgentCardFacts.


(** * Further properties of the code *)

(** ** The OpenAI host agent: the loop and what follows it *)

Section OpenAIHostMore.
Import Py Gen Chat Events OpenAIHost.

(** C1, at an event whose [str] content is empty: lines 75-80 and 90-95
    append and yield without the test of line 68 ('Only yield if there's
    actual content'), so the handler replies with the empty string.  On
    a stream of that event alone the caller sees the empty reply and then
    the placeholder; on a stream that goes on with a text delta the
    caller sees the empty reply and then the text, and the stream has
    ended without an exception in both. *)
Theorem empty_content_reply_observed :
  let raw_empty :=
    {| ev_str := None; ev_type := Some (VStr "raw_response_event");
       ev_data := Some {| data_type_name := "ResponseContentPartAddedEvent";
                          data_delta := None;
                          data_content := Some (VStr "") |};
       ev_content := None; ev_has_item := false |} in
  let message_empty :=
    {| ev_str := None; ev_type := Some (VStr "message_output_created");
       ev_data := None; ev_content := Some (VStr "");
       ev_has_item := false |} in
  let stream_of evs := {| sr_events := evs; sr_error := None;
                          sr_result := None;
                          sr_shown := "RunResultStreaming" |} in
  returns (aggregate (stream_of [raw_empty])) = true
  /\ yielded (chat (inr (stream_of [raw_empty])))
     = [assistant ""; assistant placeholder]
  /\ yielded (chat (inr (stream_of [message_empty])))
     = [assistant ""; assistant placeholder]
  /\ returns (aggregate (stream_of [message_empty; text_delta "Hello"])) = true
  /\ yielded (chat (inr (stream_of [message_empty; text_delta "Hello"])))
     = [assistant ""; assistant "Hello"]
  /\ yielded (chat (inr (stream_of [text_delta ""; text_delta "Hello"])))
     = [assistant "Hello"].
Proof. repeat split. Qed.

(** The loop yields at most one reply per event. *)
Lemma for_each_at_most_one (evs : list event) (acc : string) :
  length (yielded (for_each evs on_event acc)) <= length evs.
Proof.
  revert acc. induction evs as [|e evs IH]; intros acc; simpl; [lia|].
  destruct (on_event_cases e acc) as [H | [[s H] | [ex H]]].
  - rewrite (bind_normal _ _ _ _ _ _ H). simpl. specialize (IH acc). lia.
  - rewrite (bind_normal _ _ _ _ _ _ H). simpl.
    specialize (IH (acc +:+ s)). lia.
  - rewrite (bind_raise _ _ _ _ _ _ H). simpl. lia.
Qed.

(** The loop replies at most once per event, and the handler at most
    twice more: once from the fallback and once with the placeholder. *)
Theorem loop_replies_bounded (sr : stream_result) :
  length (yielded (aggregate sr)) <= length (sr_events sr)
  /\ length (yielded (chat (inr sr))) <= length (sr_events sr) + 2.
Proof.
  assert (Hloop : length (yielded (aggregate sr)) <= length (sr_events sr)).
  { unfold aggregate, stream_events.
    pose proof (for_each_at_most_one (sr_events sr) "") as Hle.
    destruct (for_each (sr_events sr) on_event "") as [ys s' [[]|e]] eqn:Hfe;
      simpl in Hle.
    - rewrite (bind_normal _ _ _ _ _ _ Hfe).
      destruct (sr_error sr); simpl; rewrite app_nil_r; exact Hle.
    - rewrite (bind_raise _ _ _ _ _ _ Hfe). exact Hle. }
  split; [exact Hloop|].
  rewrite chat_started. simpl. unfold try_except. fold (aggregate sr).
  destruct (outcome (aggregate sr)).
  - rewrite length_app.
    destruct (negb (String.eqb (final (aggregate sr)) "")); simpl; lia.
  - destruct (fallback_quiet sr (final (aggregate sr))) as (ms & -> & Hms).
    simpl. rewrite !length_app.
    assert (length ms <= 1) by (destruct Hms as [-> | [s ->]]; simpl; lia).
    destruct (negb (String.eqb (final (aggregate sr)) "")); simpl; lia.
Qed.

(** The handler, for a runner that started: the replies of the loop, then
    the reply of the fallback if the loop was left by an exception, then
    the placeholder if the buffer is empty.  The buffer is what the loop
    left, and no exception leaves the handler. *)
Theorem chat_decomposes (sr : stream_result) :
  let loop := aggregate sr in
  chat (inr sr)
  = Run (yielded loop
           ++ (if returns loop then []
               else yielded (fallback sr (final loop)))
           ++ (if String.eqb (final loop) "" then [assistant placeholder]
               else []))
        (final loop) (Normal tt).
Proof.
  intros loop. rewrite chat_started. unfold try_except, returns.
  fold (aggregate sr). fold loop.
  destruct (outcome loop) as [[]|e]; simpl.
  - now destruct (String.eqb (final loop) "").
  - destruct (fallback_quiet sr (final loop)) as (ms & E & _).
    rewrite E. simpl. rewrite <- app_assoc.
    now destruct (String.eqb (final loop) "").
Qed.

(** Whatever the shapes of the events, when the stream ends without an
    exception the handler replies with what the loop replied, plus the
    placeholder if nothing was accumulated; the reply the caller is left
    with is the whole accumulated text, or the placeholder. *)
Theorem successful_stream_replies (sr : stream_result) :
  returns (aggregate sr) = true ->
  yielded (chat (inr sr))
  = yielded (aggregate sr)
      ++ (if String.eqb (final (aggregate sr)) "" then [assistant placeholder]
          else [])
  /\ last (yielded (chat (inr sr)))
     = Some (assistant (if String.eqb (final (aggregate sr)) ""
                        then placeholder else final (aggregate sr))).
Proof.
  intros Hret. split.
  - rewrite chat_started.
    assert (Hinner : try_except (stream_events sr) (fun _ => fallback sr) ""
                     = aggregate sr).
    { unfold try_except. fold (aggregate sr). unfold returns in Hret.
      now destruct (outcome (aggregate sr)). }
    rewrite Hinner. cbn [yielded truthy].
    now destruct (String.eqb (final (aggregate sr)) "").
  - destruct (success_last_reply sr Hret) as [_ ->]. unfold truthy.
    now destruct (String.eqb (final (aggregate sr)) "").
Qed.

Lemma successful_stream_replies_witness :
  let content_event :=
    {| ev_str := None; ev_type := Some (VStr "message_output");
       ev_data := None; ev_content := Some (VStr "Score: 3-2");
       ev_has_item := false |} in
  last (yielded (chat (inr {| sr_events := [text_delta "Final. "; content_event];
                              sr_error := None; sr_result := None;
                              sr_shown := "RunResultStreaming" |})))
  = Some (assistant "Final. Score: 3-2").
Proof.
  intros content_event.
  apply (successful_stream_replies
           {| sr_events := [text_delta "Final. "; content_event];
              sr_error := None; sr_result := None;
              sr_shown := "RunResultStreaming" |}).
  reflexivity.
Defined.

(** When the stream fails before any text was accumulated and the
    fallback obtains a final result, that result is replied and then the
    placeholder after it: the caller is left with the placeholder. *)
Theorem fallback_result_then_placeholder (sr : stream_result) (v : value) :
  returns (aggregate sr) = false ->
  final (aggregate sr) = "" ->
  sr_result sr = Some (inr v) ->
  truthy v = true ->
  yielded (chat (inr sr))
  = yielded (aggregate sr) ++ [assistant (str v); assistant placeholder].
Proof.
  intros Hret Hfin Hres Htr. rewrite chat_started.
  assert (Hinner : try_except (stream_events sr) (fun _ => fallback sr) ""
                   = Run (yielded (aggregate sr) ++ [assistant (str v)]) ""
                         (Normal tt)).
  { unfold try_except at 1. fold (aggregate sr). unfold returns in Hret.
    destruct (outcome (aggregate sr)); [discriminate Hret|].
    rewrite Hfin. unfold fallback, try_except, bind, await. rewrite Hres.
    simpl. now rewrite Htr. }
  rewrite Hinner. simpl. now rewrite <- app_assoc.
Qed.

Lemma fallback_result_then_placeholder_witness :
  yielded (chat (inr {| sr_events := [];
                        sr_error := Some (Exn "RuntimeError" "connection lost");
                        sr_result := Some (inr (VStr "Pirates won 3-2"));
                        sr_shown := "RunResultStreaming" |}))
  = [assistant "Pirates won 3-2"; assistant placeholder].
Proof.
  apply (fallback_result_then_placeholder
           {| sr_events := [];
              sr_error := Some (Exn "RuntimeError" "connection lost");
              sr_result := Some (inr (VStr "Pirates won 3-2"));
              sr_shown := "RunResultStreaming" |} (VStr "Pirates won 3-2"));
    reflexivity.
Defined.

(** Two runs whose loops do the same and whose stream results answer the
    fallback alike give the same replies. *)
Lemma chat_of_same_loop (sr sr' : stream_result) :
  (forall acc, stream_events sr acc = stream_events sr' acc) ->
  sr_result sr = sr_result sr' ->
  sr_shown sr = sr_shown sr' ->
  chat (inr sr) = chat (inr sr').
Proof.
  intros Hloop Hres Hshown. rewrite !chat_started.
  assert (Hinner : try_except (stream_events sr) (fun _ => fallback sr) ""
                   = try_except (stream_events sr') (fun _ => fallback sr') "").
  { unfold try_except. rewrite Hloop. unfold fallback.
    now rewrite Hres, Hshown. }
  now rewrite Hinner.
Qed.

(** [for] stops at an element whose body raises: what comes after it is
    not looked at. *)
Lemma for_each_abort (pre post post' : list event) (e : event) (ex : exn) :
  (forall acc, on_event e acc = Run [] acc (Raise ex)) ->
  forall acc,
    for_each (pre ++ e :: post) on_event acc
    = for_each (pre ++ e :: post') on_event acc.
Proof.
  intros He. induction pre as [|x pre IH]; intros acc; simpl.
  - now rewrite !(bind_raise _ _ _ _ _ _ (He acc)).
  - unfold bind. destruct (outcome (on_event x acc)); [|reflexivity].
    now rewrite IH.
Qed.

Lemma chat_abort (pre post post' : list event) (e : event) (ex : exn)
    (err err' : option exn) (result : option (exn + value)) (shown : string) :
  (forall acc, on_event e acc = Run [] acc (Raise ex)) ->
  chat (inr {| sr_events := pre ++ e :: post; sr_error := err;
               sr_result := result; sr_shown := shown |})
  = chat (inr {| sr_events := pre ++ e :: post'; sr_error := err';
                 sr_result := result; sr_shown := shown |}).
Proof.
  intros He. apply chat_of_same_loop; try reflexivity.
  intros acc. unfold stream_events. simpl.
  assert (Hr : exists ys s' ex',
             for_each (pre ++ e :: post') on_event acc = Run ys s' (Raise ex')).
  { clear -He. revert acc.
    induction pre as [|x pre IH]; intros acc; simpl.
    - rewrite (bind_raise _ _ _ _ _ _ (He acc)). eauto.
    - destruct (on_event x acc) as [ys s' [[]|ex']] eqn:Hx.
      + rewrite (bind_normal _ _ _ _ _ _ Hx).
        destruct (IH s') as (zs & s'' & ex'' & H). rewrite H. simpl. eauto.
      + rewrite (bind_raise _ _ _ _ _ _ Hx). eauto. }
  destruct Hr as (ys & s' & ex' & H').
  pose proof (for_each_abort pre post post' e ex He acc) as H.
  rewrite H' in H.
  now rewrite (bind_raise _ _ _ _ _ _ H), (bind_raise _ _ _ _ _ _ H').
Qed.

(** An event without a [type] attribute ends the turn's aggregation:
    whatever events follow it, and however the stream itself would have
    ended, the replies are the same. *)
Theorem events_after_typeless_event_ignored (pre post post' : list event)
    (e : event) (err err' : option exn) (result : option (exn + value))
    (shown : string) :
  ev_type e = None ->
  chat (inr {| sr_events := pre ++ e :: post; sr_error := err;
               sr_result := result; sr_shown := shown |})
  = chat (inr {| sr_events := pre ++ e :: post'; sr_error := err';
                 sr_result := result; sr_shown := shown |}).
Proof.
  intros Ht. apply chat_abort with (AttributeError "type").
  intros acc. unfold on_event, print_run_item, bind. now rewrite Ht.
Qed.

Lemma events_after_typeless_event_ignored_witness :
  let plain := {| ev_str := Some "text"; ev_type := None; ev_data := None;
                  ev_content := None; ev_has_item := false |} in
  chat (inr {| sr_events := [text_delta "Hel"] ++ plain :: [text_delta "lo"];
               sr_error := None; sr_result := None;
               sr_shown := "RunResultStreaming" |})
  = chat (inr {| sr_events := [text_delta "Hel"] ++ plain :: [];
                 sr_error := None; sr_result := None;
                 sr_shown := "RunResultStreaming" |}).
Proof.
  intros plain.
  apply (events_after_typeless_event_ignored [text_delta "Hel"]
           [text_delta "lo"] [] plain).
  reflexivity.
Defined.

(** A text delta event whose [delta] is true as a condition but is not a
    [str] makes [accumulated_text += delta_text] raise: the aggregation
    ends there as well. *)
Theorem events_after_non_text_delta_ignored (pre post post' : list event)
    (e : event) (d : data) (v : value) (err err' : option exn)
    (result : option (exn + value)) (shown : string) :
  ev_type e = Some (VStr "raw_response_event") ->
  ev_data e = Some d ->
  data_type_name d = "ResponseTextDeltaEvent"%string ->
  data_delta d = Some v ->
  truthy v = true ->
  isinstance_str v = false ->
  chat (inr {| sr_events := pre ++ e :: post; sr_error := err;
               sr_result := result; sr_shown := shown |})
  = chat (inr {| sr_events := pre ++ e :: post'; sr_error := err';
                 sr_result := result; sr_shown := shown |}).
Proof.
  intros Ht Hd Hn Hdelta Htr Hstr. apply chat_abort with TypeError.
  intros acc.
  unfold on_event, print_run_item, dispatch, has_type, raw_response, bind.
  rewrite Ht, Hd. simpl. rewrite Hn, Hdelta. simpl. rewrite Htr.
  destruct v; [discriminate Hstr | reflexivity | reflexivity].
Qed.

Lemma events_after_non_text_delta_ignored_witness :
  let d := {| data_type_name := "ResponseTextDeltaEvent";
              data_delta := Some (VBool true); data_content := None |} in
  let e := {| ev_str := None; ev_type := Some (VStr "raw_response_event");
              ev_data := Some d; ev_content := None; ev_has_item := false |} in
  chat (inr {| sr_events := [] ++ e :: [text_delta "late"];
               sr_error := None; sr_result := None;
               sr_shown := "RunResultStreaming" |})
  = chat (inr {| sr_events := [] ++ e :: [];
                 sr_error := None; sr_result := None;
                 sr_shown := "RunResultStreaming" |}).
Proof.
  intros d e.
  apply (events_after_non_text_delta_ignored [] [text_delta "late"] [] e d
           (VBool true)); reflexivity.
Defined.

(** Leaving out an event at which the body does nothing. *)
Lemma chat_skip (pre post : list event) (e : event) (err : option exn)
    (result : option (exn + value)) (shown : string) :
  (forall acc, on_event e acc = Run [] acc (Normal tt)) ->
  chat (inr {| sr_events := pre ++ e :: post; sr_error := err;
               sr_result := result; sr_shown := shown |})
  = chat (inr {| sr_events := pre ++ post; sr_error := err;
                 sr_result := result; sr_shown := shown |}).
Proof.
  intros He. apply chat_of_same_loop; try reflexivity.
  intros acc. unfold stream_events, bind. simpl.
  now rewrite (for_each_skip pre post e He).
Qed.

(** An [agent_updated_stream_event] is informational: it is passed over
    even when it has a [str] as [content] or is itself a [str], and the
    replies are those of the stream without it. *)
Theorem agent_updated_event_ignored (pre post : list event) (e : event)
    (err : option exn) (result : option (exn + value)) (shown : string) :
  ev_type e = Some (VStr "agent_updated_stream_event") ->
  chat (inr {| sr_events := pre ++ e :: post; sr_error := err;
               sr_result := result; sr_shown := shown |})
  = chat (inr {| sr_events := pre ++ post; sr_error := err;
                 sr_result := result; sr_shown := shown |}).
Proof.
  intros Ht. apply chat_skip. intros acc.
  unfold on_event, print_run_item, dispatch, has_type, bind.
  now rewrite Ht.
Qed.

Lemma agent_updated_event_ignored_witness :
  let e := {| ev_str := None;
              ev_type := Some (VStr "agent_updated_stream_event");
              ev_data := None; ev_content := Some (VStr "Routing agent");
              ev_has_item := false |} in
  chat (inr {| sr_events := [text_delta "Hel"] ++ e :: [text_delta "lo"];
               sr_error := None; sr_result := None;
               sr_shown := "RunResultStreaming" |})
  = chat (inr {| sr_events := [text_delta "Hel"] ++ [text_delta "lo"];
                 sr_error := None; sr_result := None;
                 sr_shown := "RunResultStreaming" |}).
Proof.
  intros e.
  apply (agent_updated_event_ignored [text_delta "Hel"] [text_delta "lo"] e).
  reflexivity.
Defined.

(** A text delta with an empty payload gives no reply of its own: the
    replies are those of the stream without it. *)
Theorem empty_delta_dropped (pre post : list event) (e : event)
    (err : option exn) (result : option (exn + value)) (shown : string) :
  delta_payload e = Some ""%string ->
  chat (inr {| sr_events := pre ++ e :: post; sr_error := err;
               sr_result := result; sr_shown := shown |})
  = chat (inr {| sr_events := pre ++ post; sr_error := err;
                 sr_result := result; sr_shown := shown |}).
Proof.
  intros Hd. apply chat_skip. intros acc.
  now rewrite (on_event_delta e "" acc Hd).
Qed.

Lemma empty_delta_dropped_witness :
  chat (inr {| sr_events := [text_delta "Hel"] ++ text_delta "" :: [text_delta "lo"];
               sr_error := None; sr_result := None;
               sr_shown := "RunResultStreaming" |})
  = chat (inr {| sr_events := [text_delta "Hel"] ++ [text_delta "lo"];
                 sr_error := None; sr_result := None;
                 sr_shown := "RunResultStreaming" |}).
Proof.
  apply (empty_delta_dropped [text_delta "Hel"] [text_delta "lo"]
           (text_delta "")).
  reflexivity.
Defined.
End OpenAIHostMore.


(** ** The AI Foundry host agent: replies, start-up and shutdown *)

Section AIFoundryHostMore.
Import Py Gen Chat AIFoundryHost.

(** The chat handler leaves the application object as it was; it replies
    once when the routing agent is not initialised and twice otherwise;
    and the reply the caller is left with is a message of the assistant
    whose content is never empty or otherwise false, also when the
    routing agent answered with nothing. *)
Theorem handler_last_reply_not_empty (message : string)
    (self : RoutingAgentApp) :
  let r := get_response_from_agent message self in
  final r = self
  /\ length (yielded r)
     = match routing_agent self with Some _ => 2 | None => 1 end
  /\ exists m, last (yielded r) = Some m
               /\ role m = "assistant"%string
               /\ truthy (content m) = true.
Proof.
  cbv zeta. destruct (routing_agent self) as [agent|] eqn:H.
  - destruct (process_user_message agent message) as [e|v] eqn:Hp.
    + rewrite (handler_raises _ _ _ _ H Hp). simpl.
      repeat split. eexists. repeat split.
    + rewrite (handler_answers _ _ _ _ H Hp). simpl.
      repeat split.
      destruct (truthy v) eqn:Hv; eexists; repeat split. exact Hv.
  - rewrite (handler_not_initialized _ _ H). simpl.
    repeat split. eexists. repeat split.
Qed.

(** A required variable that is set to the empty string counts as
    missing: it is named in the message and start-up stops there. *)
Theorem empty_setting_stops_startup (w : world) (var : string) :
  In var required_env_vars ->
  environ w !! var = Some ""%string ->
  In var (missing_vars w)
  /\ yielded (main w)
     = [Print ("❌ Missing required environment variables: "
                 +:+ String.concat ", " (missing_vars w));
        Print "Please set these environment variables before running the application."]
  /\ returns (main w) = true.
Proof.
  intros Hreq Hempty.
  assert (Hin : In var (missing_vars w)).
  { apply missing_vars_spec. split; [exact Hreq|].
    unfold getenv_set. now rewrite Hempty. }
  assert (Hne : missing_vars w <> []).
  { intros E. rewrite E in Hin. exact Hin. }
  unfold main. rewrite (run_missing w init Hne). auto.
Qed.

Lemma empty_setting_stops_startup_witness :
  let w := {| environ :=
                <["AZURE_AI_AGENT_ENDPOINT" := ""%string]>
                  {["AZURE_AI_AGENT_MODEL_DEPLOYMENT_NAME" := "gpt-4o"%string]};
              create := inl (Exn "RuntimeError" "unreachable");
              create_agent := inl (Exn "RuntimeError" "unreachable");
              gradio_interface := None;
              launch := None |} in
  yielded (main w)
  = [Print "❌ Missing required environment variables: AZURE_AI_AGENT_ENDPOINT";
     Print "Please set these environment variables before running the application."].
Proof.
  intros w.
  apply (empty_setting_stops_startup w "AZURE_AI_AGENT_ENDPOINT");
    [simpl; auto | reflexivity].
Defined.

(** [run] when creating the routing agent fails. *)
Lemma run_create_fails (w : world) (self : RoutingAgentApp) (e : exn) :
  missing_vars w = [] ->
  create w = inl e ->
  run w self
  = Run ((if forallb (getenv_set w) app_creds
          then [Print "✅ Using Azure application (service principal) authentication"]
          else [Print "✅ Using DefaultAzureCredential authentication";
                Print "   Make sure you're logged in with 'az login' or have other valid credentials"])
         ++ [Print "Initializing Azure AI routing agent...";
             CreateRoutingAgent
               [getenv_default w "SPORTS_RESULTS_URL" "http://localhost:10001";
                getenv_default w "SPORTS_NEWS_URL" "http://localhost:10002"];
             Print ("Failed to initialize routing agent: " +:+ exn_msg e)])
        self (Raise e).
Proof.
  intros Hm Hc. unfold run, initialize_routing_agent. rewrite Hm, Hc.
  generalize (getenv_default w "SPORTS_RESULTS_URL" "http://localhost:10001"),
    (getenv_default w "SPORTS_NEWS_URL" "http://localhost:10002"),
    (forallb (getenv_set w) app_creds).
  intros results_url news_url [|]; reflexivity.
Qed.

(** [run] when the routing agent is there and creating its Azure agent
    fails. *)
Lemma run_create_agent_fails (w : world) (self : RoutingAgentApp)
    (agent : RoutingAgent) (e : exn) :
  missing_vars w = [] ->
  create w = inr agent ->
  create_agent w = inl e ->
  run w self
  = Run ((if forallb (getenv_set w) app_creds
          then [Print "✅ Using Azure application (service principal) authentication"]
          else [Print "✅ Using DefaultAzureCredential authentication";
                Print "   Make sure you're logged in with 'az login' or have other valid credentials"])
         ++ [Print "Initializing Azure AI routing agent...";
             CreateRoutingAgent
               [getenv_default w "SPORTS_RESULTS_URL" "http://localhost:10001";
                getenv_default w "SPORTS_NEWS_URL" "http://localhost:10002"];
             CreateAzureAgent;
             Print ("Failed to initialize routing agent: " +:+ exn_msg e)])
        (set_routing_agent (Some agent) self) (Raise e).
Proof.
  intros Hm Hc Ha. unfold run, initialize_routing_agent. rewrite Hm, Hc, Ha.
  generalize (getenv_default w "SPORTS_RESULTS_URL" "http://localhost:10001"),
    (getenv_default w "SPORTS_NEWS_URL" "http://localhost:10002"),
    (forallb (getenv_set w) app_creds).
  intros results_url news_url [|]; reflexivity.
Qed.

(** [run] when the initialisation goes through: the whole trace. *)
Lemma run_initialized (w : world) (self : RoutingAgentApp)
    (agent : RoutingAgent) (azure_agent : string * string) :
  missing_vars w = [] ->
  create w = inr agent ->
  create_agent w = inr azure_agent ->
  run w self
  = Run ((if forallb (getenv_set w) app_creds
          then [Print "✅ Using Azure application (service principal) authentication"]
          else [Print "✅ Using DefaultAzureCredential authentication";
                Print "   Make sure you're logged in with 'az login' or have other valid credentials"])
         ++ [Print "Initializing Azure AI routing agent...";
             CreateRoutingAgent
               [getenv_default w "SPORTS_RESULTS_URL" "http://localhost:10001";
                getenv_default w "SPORTS_NEWS_URL" "http://localhost:10002"];
             CreateAzureAgent;
             Print ("Azure AI routing agent initialized successfully with Name and ID: "
                      +:+ fst azure_agent +:+ " - " +:+ snd azure_agent)]
         ++ match gradio_interface w with
            | Some e => [Print ("Error in main application: " +:+ exn_msg e)]
            | None =>
                [Print "Launching Gradio interface..."; LaunchInterface 8083]
                ++ match launch w with
                   | Some e =>
                       [Print ("Error in main application: " +:+ exn_msg e)]
                   | None => []
                   end
            end
         ++ [Print "Shutting down application...";
             RoutingAgentCleanup;
             match cleanup agent with
             | Some e => Print ("Error during cleanup: " +:+ exn_msg e)
             | None => Print "Routing agent cleaned up successfully."
             end;
             Print "Gradio application has been shut down."])
        {| routing_agent := None;
           demo := match gradio_interface w with
                   | Some _ => demo self
                   | None => true
                   end |}
        (Normal tt).
Proof.
  intros Hm Hc Ha.
  unfold run, initialize_routing_agent, cleanup_routing_agent.
  rewrite Hm, Hc, Ha.
  generalize (getenv_default w "SPORTS_RESULTS_URL" "http://localhost:10001"),
    (getenv_default w "SPORTS_NEWS_URL" "http://localhost:10002"),
    (forallb (getenv_set w) app_creds).
  intros results_url news_url [|];
    destruct agent as [pum [ce|]], (gradio_interface w) as [ie|],
      (launch w) as [le|], self as [ra d]; reflexivity.
Qed.

Lemma not_in_authentication_lines (b : bool) (ef : effect) :
  (forall line, ef <> Print line) ->
  ~ In ef
      (if b
       then [Print "✅ Using Azure application (service principal) authentication"]
       else [Print "✅ Using DefaultAzureCredential authentication";
             Print "   Make sure you're logged in with 'az login' or have other valid credentials"]).
Proof.
  intros Hne. destruct b; simpl; intros Hin;
    repeat (destruct Hin as [Hin|Hin];
            [symmetry in Hin; now apply Hne in Hin | ]); exact Hin.
Qed.

(** When the settings are there and creating the routing agent fails,
    [run] lets that exception out after reporting it: the Azure agent is
    not created, the interface is not launched, there is nothing to clean
    up and nothing is cleaned up. *)
Theorem create_failure_ends_run (w : world) (e : exn) :
  missing_vars w = [] ->
  create w = inl e ->
  outcome (main w) = Raise e
  /\ routing_agent (final (main w)) = None
  /\ last (yielded (main w))
     = Some (Print ("Failed to initialize routing agent: " +:+ exn_msg e))
  /\ ~ In CreateAzureAgent (yielded (main w))
  /\ ~ In RoutingAgentCleanup (yielded (main w))
  /\ forall port, ~ In (LaunchInterface port) (yielded (main w)).
Proof.
  intros Hm Hc. unfold main. rewrite (run_create_fails w init e Hm Hc).
  cbn [outcome final yielded].
  split; [reflexivity|]. split; [reflexivity|].
  split; [now rewrite last_app|].
  split; [|split]; [intros Hin | intros Hin | intros port Hin];
    apply in_app_or in Hin as [Hin|Hin];
    try (revert Hin; apply not_in_authentication_lines; discriminate);
    cbn [In] in Hin; repeat (destruct Hin as [Hin|Hin]; [discriminate Hin|]);
    exact Hin.
Qed.

Lemma create_failure_ends_run_witness :
  let e := Exn "ConnectError" "All connection attempts failed" in
  let w := {| environ :=
                <["AZURE_AI_AGENT_ENDPOINT" := "https://example.services.ai.azure.com"%string]>
                  {["AZURE_AI_AGENT_MODEL_DEPLOYMENT_NAME" := "gpt-4o"%string]};
              create := inl e;
              create_agent := inr ("routing"%string, "asst_1"%string);
              gradio_interface := None;
              launch := None |} in
  outcome (main w) = Raise e.
Proof.
  intros e w. apply (create_failure_ends_run w e); reflexivity.
Defined.

(** When the routing agent was created but its Azure agent cannot be,
    [run] lets the exception out as well; the routing agent stays
    referenced by the application and its [cleanup()] is not called,
    because the initialisation is outside the [try]/[finally] that
    cleans up. *)
Theorem create_agent_failure_skips_cleanup (w : world) (agent : RoutingAgent)
    (e : exn) :
  missing_vars w = [] ->
  create w = inr agent ->
  create_agent w = inl e ->
  outcome (main w) = Raise e
  /\ routing_agent (final (main w)) = Some agent
  /\ In CreateAzureAgent (yielded (main w))
  /\ ~ In RoutingAgentCleanup (yielded (main w))
  /\ forall port, ~ In (LaunchInterface port) (yielded (main w)).
Proof.
  intros Hm Hc Ha. unfold main.
  rewrite (run_create_agent_fails w init agent e Hm Hc Ha).
  cbn [outcome final yielded].
  split; [reflexivity|]. split; [reflexivity|].
  split; [apply in_or_app; right; cbn [In]; tauto|].
  split; [intros Hin | intros port Hin];
    apply in_app_or in Hin as [Hin|Hin];
    try (revert Hin; apply not_in_authentication_lines; discriminate);
    cbn [In] in Hin; repeat (destruct Hin as [Hin|Hin]; [discriminate Hin|]);
    exact Hin.
Qed.

Lemma create_agent_failure_skips_cleanup_witness :
  let e := Exn "ClientAuthenticationError" "DefaultAzureCredential failed" in
  let agent := {| process_user_message := fun _ => inr (VStr "ok");
                  cleanup := None |} in
  let w := {| environ :=
                <["AZURE_AI_AGENT_ENDPOINT" := "https://example.services.ai.azure.com"%string]>
                  {["AZURE_AI_AGENT_MODEL_DEPLOYMENT_NAME" := "gpt-4o"%string]};
              create := inr agent;
              create_agent := inl e;
              gradio_interface := None;
              launch := None |} in
  routing_agent (final (main w)) = Some agent.
Proof.
  intros e agent w.
  apply (create_agent_failure_skips_cleanup w agent e); reflexivity.
Defined.



(** The routing agent is created exactly when no required setting is
    missing, and only ever with the two addresses taken from the
    environment, or the local defaults where the environment has none. *)
Theorem initialization_iff_settings_present (w : world) :
  ((exists addresses, In (CreateRoutingAgent addresses) (yielded (main w)))
   <-> missing_vars w = [])
  /\ forall addresses,
       In (CreateRoutingAgent addresses) (yielded (main w)) ->
       addresses
       = [getenv_default w "SPORTS_RESULTS_URL" "http://localhost:10001";
          getenv_default w "SPORTS_NEWS_URL" "http://localhost:10002"].
Proof.
  destruct (missing_vars w) as [|v vs] eqn:Hm.
  - assert (Hcases :
      exists auth rest,
        yielded (main w)
        = auth ++ Print "Initializing Azure AI routing agent..."
               :: CreateRoutingAgent
                    [getenv_default w "SPORTS_RESULTS_URL" "http://localhost:10001";
                     getenv_default w "SPORTS_NEWS_URL" "http://localhost:10002"]
               :: rest
        /\ (forall addresses, ~ In (CreateRoutingAgent addresses) auth)
        /\ forall addresses, ~ In (CreateRoutingAgent addresses) rest).
    { unfold main. destruct (create w) as [e|agent] eqn:Hc.
      - rewrite (run_create_fails w init e Hm Hc). cbn [yielded].
        eexists _, _. split; [reflexivity|]. split.
        + intros addresses. apply not_in_authentication_lines. discriminate.
        + intros addresses Hin. cbn [In] in Hin.
          repeat (destruct Hin as [Hin|Hin]; [discriminate Hin|]). exact Hin.
      - destruct (create_agent w) as [e|az] eqn:Ha.
        + rewrite (run_create_agent_fails w init agent e Hm Hc Ha).
          cbn [yielded].
          eexists _, _. split; [reflexivity|]. split.
          * intros addresses. apply not_in_authentication_lines. discriminate.
          * intros addresses Hin. cbn [In] in Hin.
            repeat (destruct Hin as [Hin|Hin]; [discriminate Hin|]). exact Hin.
        + rewrite (run_initialized w init agent az Hm Hc Ha). cbn [yielded].
          eexists _, _. split; [cbn [app]; reflexivity|]. split.
          * intros addresses. apply not_in_authentication_lines. discriminate.
          * intros addresses Hin. cbn [In] in Hin.
            do 2 (destruct Hin as [Hin|Hin]; [discriminate Hin|]).
            apply in_app_or in Hin as [Hin|Hin].
            -- destruct (gradio_interface w), (launch w); cbn [In app] in Hin;
                 repeat (destruct Hin as [Hin|Hin]; [discriminate Hin|]);
                 exact Hin.
            -- cbn [In] in Hin.
               destruct (cleanup agent);
                 repeat (destruct Hin as [Hin|Hin]; [discriminate Hin|]);
                 exact Hin. }
    destruct Hcases as (auth & rest & -> & Hauth & Hrest).
    split.
    + split; [reflexivity|]. intros _. eexists.
      apply in_or_app. right. cbn [In]. right. left. reflexivity.
    + intros addresses Hin. apply in_app_or in Hin as [Hin|Hin].
      * now apply Hauth in Hin.
      * cbn [In] in Hin. destruct Hin as [Hin | [Hin | Hin]];
          [discriminate Hin | now injection Hin as <- | now apply Hrest in Hin].
  - assert (Hne : missing_vars w <> []) by (rewrite Hm; discriminate).
    unfold main. rewrite (run_missing w init Hne). cbn [yielded].
    split.
    + split; [|discriminate].
      intros [addresses [H | [H | []]]]; discriminate H.
    + intros addresses [H | [H | []]]; discriminate H.
Qed.

(** Service principal authentication is announced only when all three
    of [AZURE_CLIENT_ID], [AZURE_CLIENT_SECRET] and [AZURE_TENANT_ID] are
    set and not empty; with any of them absent or empty the application
    announces the default credential instead, without a warning. *)
Theorem authentication_note (w : world) :
  missing_vars w = [] ->
  (In (Print "✅ Using Azure application (service principal) authentication")
      (yielded (main w))
   <-> forall var, In var app_creds -> getenv_set w var = true)
  /\ (In (Print "✅ Using DefaultAzureCredential authentication")
         (yielded (main w))
      <-> exists var, In var app_creds /\ getenv_set w var = false).
Proof.
  intros Hm.
  assert (Hcases :
    exists rest,
      yielded (main w)
      = (if forallb (getenv_set w) app_creds
         then [Print "✅ Using Azure application (service principal) authentication"]
         else [Print "✅ Using DefaultAzureCredential authentication";
               Print "   Make sure you're logged in with 'az login' or have other valid credentials"])
        ++ rest
      /\ Forall (fun ef => forall line, ef = Print line ->
                           String.get 0 line <> String.get 0 "✅") rest).
  { unfold main. destruct (create w) as [e|agent] eqn:Hc.
    - rewrite (run_create_fails w init e Hm Hc). cbn [yielded].
      eexists. split; [reflexivity|].
      repeat constructor; intros line [= <-]; discriminate.
    - destruct (create_agent w) as [e|az] eqn:Ha.
      + rewrite (run_create_agent_fails w init agent e Hm Hc Ha). cbn [yielded].
        eexists. split; [reflexivity|].
        repeat constructor; intros line [= <-]; discriminate.
      + rewrite (run_initialized w init agent az Hm Hc Ha). cbn [yielded].
        eexists. split; [reflexivity|].
        destruct (gradio_interface w), (launch w), (cleanup agent); cbn [app];
          repeat constructor; intros line [= <-]; discriminate. }
  destruct Hcases as (rest & -> & Hrest).
  rewrite Forall_forall in Hrest.
  assert (Hnot : forall line, String.get 0 line = String.get 0 "✅" ->
                              ~ In (Print line) rest).
  { intros line Hline Hin. apply list_elem_of_In in Hin.
    now apply (Hrest _ Hin line). }
  assert (Hall : forallb (getenv_set w) app_creds = true
                 <-> forall var, In var app_creds -> getenv_set w var = true)
    by apply forallb_forall.
  assert (Hsome : forallb (getenv_set w) app_creds = false
                  <-> exists var, In var app_creds /\ getenv_set w var = false).
  { rewrite <- not_true_iff_false, Hall. split.
    - intros Hn. unfold app_creds in *. cbn [In] in *.
      destruct (getenv_set w "AZURE_CLIENT_ID") eqn:H1; [|eauto 6].
      destruct (getenv_set w "AZURE_CLIENT_SECRET") eqn:H2; [|eauto 6].
      destruct (getenv_set w "AZURE_TENANT_ID") eqn:H3; [|eauto 6].
      exfalso. apply Hn. intros var [<- | [<- | [<- | []]]]; assumption.
    - intros (var & Hin & Hf) Ht. rewrite (Ht var Hin) in Hf. discriminate. }
  rewrite <- Hall, <- Hsome.
  destruct (forallb (getenv_set w) app_creds); split; split.
  - reflexivity.
  - intros _. apply in_or_app. left. cbn [In]. tauto.
  - intros Hin. apply in_app_or in Hin as [Hin|Hin].
    + cbn [In] in Hin. destruct Hin as [Hin | []]. discriminate Hin.
    + exfalso. revert Hin. now apply Hnot.
  - discriminate.
  - intros Hin. apply in_app_or in Hin as [Hin|Hin].
    + cbn [In] in Hin. destruct Hin as [Hin | [Hin | []]]; discriminate Hin.
    + exfalso. revert Hin. now apply Hnot.
  - discriminate.
  - reflexivity.
  - intros _. apply in_or_app. left. cbn [In]. tauto.
Qed.

Lemma authentication_note_witness :
  let w := {| environ :=
                <["AZURE_CLIENT_ID" := "app-id"%string]>
                  (<["AZURE_AI_AGENT_ENDPOINT" := "https://example.services.ai.azure.com"%string]>
                     {["AZURE_AI_AGENT_MODEL_DEPLOYMENT_NAME" := "gpt-4o"%string]});
              create := inl (Exn "ConnectError" "All connection attempts failed");
              create_agent := inr ("routing"%string, "asst_1"%string);
              gradio_interface := None;
              launch := None |} in
  In (Print "✅ Using DefaultAzureCredential authentication") (yielded (main w)).
Proof.
  intros w. apply (proj2 (authentication_note w eq_refl)).
  exists "AZURE_CLIENT_SECRET"%string. split; [cbn; tauto | reflexivity].
Defined.

(** An exception of the routing agent's [cleanup()] is printed and goes
    no further; the reference is cleared all the same. *)
Theorem cleanup_failure_reported (self : RoutingAgentApp)
    (agent : RoutingAgent) (e : exn) :
  routing_agent self = Some agent ->
  cleanup agent = Some e ->
  cleanup_routing_agent self
  = Run [RoutingAgentCleanup; Print ("Error during cleanup: " +:+ exn_msg e)]
        (set_routing_agent None self) (Normal tt).
Proof.
  intros Ha Hc. destruct self as [ra d]. cbn [routing_agent] in Ha. subst ra.
  destruct agent as [pum ce]. cbn [cleanup] in Hc. subst ce.
  reflexivity.
Qed.

Lemma cleanup_failure_reported_witness :
  let agent := {| process_user_message := fun _ => inr (VStr "ok");
                  cleanup := Some (Exn "RuntimeError" "already closed") |} in
  cleanup_routing_agent {| routing_agent := Some agent; demo := true |}
  = Run [RoutingAgentCleanup; Print "Error during cleanup: already closed"]
        {| routing_agent := None; demo := true |} (Normal tt).
Proof.
  intros agent.
  apply (cleanup_failure_reported {| routing_agent := Some agent; demo := true |}
           agent (Exn "RuntimeError" "already closed")); reflexivity.
Defined.
End AIFoundryHostMore.


(** ** The sports results agent: streaming and life cycle *)

Section SportsResultsAgentMore.
Import Py Gen Events SportsResultsAgent.

Lemma truthy_delta_truthy (e : event) (v : value) :
  truthy_delta e = Some v -> truthy v = true.
Proof.
  unfold truthy_delta.
  destruct (if has_type e "raw_response_event" then ev_data e else None)
    as [d|]; [|discriminate].
  destruct (if String.eqb (data_type_name d) "ResponseTextDeltaEvent"
            then data_delta d else None) as [delta|]; [|discriminate].
  destruct (truthy delta) eqn:Ht; [|discriminate].
  now intros [= <-].
Qed.

(** The body of the loop yields the delta of the event, if it has one
    that counts, and never raises. *)
Lemma stream_on_event (e : event) (self : OpenAIWebSearchAgent) :
  on_event e self
  = Run (match truthy_delta e with
         | Some v => [response false false v]
         | None => []
         end) self (Normal tt).
Proof.
  unfold on_event, truthy_delta.
  destruct (if has_type e "raw_response_event" then ev_data e else None)
    as [d|]; [|reflexivity].
  destruct (if String.eqb (data_type_name d) "ResponseTextDeltaEvent"
            then data_delta d else None) as [delta|]; [|reflexivity].
  now destruct (truthy delta).
Qed.

Lemma stream_loop (evs : list event) (self : OpenAIWebSearchAgent) :
  for_each evs on_event self
  = Run (map (response false false) (omap truthy_delta evs)) self (Normal tt).
Proof.
  induction evs as [|e evs IH]; [reflexivity|].
  cbn [for_each omap list_omap].
  rewrite (bind_normal _ _ _ _ _ _ (stream_on_event e self)), IH.
  cbn [yielded final outcome].
  now destruct (truthy_delta e).
Qed.

(** Running [stream] for an initialised agent, given what the loop
    does. *)
Ltac run_stream evs a :=
  pose proof (stream_loop evs {| agent := Some a |}) as Hloop;
  unfold stream, try_except, bind, await, ret, get, yield, raise;
  cbn [yielded final outcome agent fst snd app];
  rewrite Hloop; cbn [yielded final outcome].

(** [stream], for an initialised agent and a runner that started, is a
    filter: one dictionary, with both flags false, for each event that
    carries a delta that is true as a condition, in order, and then one
    closing dictionary, the completion message or the error that ended
    the iteration.  All other events leave no trace, and the generator
    itself never raises. *)
Theorem stream_is_filter (evs : list event) (err : option exn) (a : Agent)
    (user_input : string) (session_id : option string) :
  stream (inr (evs, err)) user_input session_id {| agent := Some a |}
  = Run (map (response false false) (omap truthy_delta evs) ++ [terminal err])
        {| agent := Some a |} (Normal tt).
Proof.
  run_stream evs a.
  destruct err as [e|]; cbn [yielded final outcome terminal];
    now rewrite ?app_nil_r.
Qed.

(** An event without a delta that counts (of another type, without
    [type] or [data], or with an empty delta) can be taken out of the
    stream without changing what [stream] yields. *)
Theorem stream_ignores_other_events (pre post : list event) (e : event)
    (err : option exn) (a : Agent) (user_input : string)
    (session_id : option string) :
  truthy_delta e = None ->
  stream (inr (pre ++ e :: post, err)) user_input session_id
    {| agent := Some a |}
  = stream (inr (pre ++ post, err)) user_input session_id
      {| agent := Some a |}.
Proof.
  intros He.
  assert (Hsame : omap truthy_delta (pre ++ e :: post)
                  = omap truthy_delta (pre ++ post)).
  { rewrite !omap_app. cbn [omap list_omap]. now rewrite He. }
  pose proof (stream_loop (pre ++ e :: post) {| agent := Some a |}) as H1.
  pose proof (stream_loop (pre ++ post) {| agent := Some a |}) as H2.
  rewrite Hsame in H1.
  unfold stream, try_except, bind, await, ret, get, yield, raise.
  cbn [yielded final outcome agent fst snd app].
  now rewrite H1, H2.
Qed.

Lemma stream_ignores_other_events_witness :
  let plain := {| ev_str := Some "text"; ev_type := None; ev_data := None;
                  ev_content := None; ev_has_item := false |} in
  stream (inr ([text_delta "Hel"] ++ plain :: [text_delta "lo"], None))
    "Show score for Pirates game last night" None
    {| agent := Some sports_results_agent |}
  = stream (inr ([text_delta "Hel"] ++ [text_delta "lo"], None))
      "Show score for Pirates game last night" None
      {| agent := Some sports_results_agent |}.
Proof.
  intros plain.
  apply (stream_ignores_other_events [text_delta "Hel"] [text_delta "lo"] plain).
  reflexivity.
Defined.

(** Whatever the agent and the runner do, [stream] returns after having
    yielded at least one dictionary.  Every dictionary has exactly the
    three keys.  All but the last are progress (both flags false, a
    content that is not empty); the last one closes the task: its
    [is_task_complete] is the negation of its [require_user_input], and
    it is true exactly when the agent is initialised and the runner's
    stream ended without an exception. *)
Theorem stream_dictionaries (run_streamed : exn + (list event * option exn))
    (user_input : string) (session_id : option string)
    (self : OpenAIWebSearchAgent) :
  let r := stream run_streamed user_input session_id self in
  outcome r = Normal tt
  /\ final r = self
  /\ exists (progress : list dict) (closing : dict) (complete : bool),
       yielded r = progress ++ [closing]
       /\ Forall (fun d =>
                    dom d = ({["is_task_complete"; "require_user_input";
                               "content"]} : gset string)
                    /\ flag d "is_task_complete" = Some false
                    /\ flag d "require_user_input" = Some false
                    /\ exists v, d !! "content" = Some v /\ truthy v = true)
                 progress
       /\ dom closing = ({["is_task_complete"; "require_user_input";
                           "content"]} : gset string)
       /\ flag closing "is_task_complete" = Some complete
       /\ flag closing "require_user_input" = Some (negb complete)
       /\ (complete = true
           <-> exists a evs, agent self = Some a
                             /\ run_streamed = inr (evs, None)).
Proof.
  cbv zeta. destruct self as [[a|]].
  - destruct run_streamed as [e | [evs err]].
    + split; [reflexivity|]. split; [reflexivity|].
      exists [], (error_response e), false.
      split; [reflexivity|]. split; [constructor|].
      split; [exact (dom_response false true _)|].
      split; [reflexivity|]. split; [reflexivity|].
      split; [discriminate|]. intros (a' & evs & _ & H). discriminate H.
    + assert (Hrun : stream (inr (evs, err)) user_input session_id
                         {| agent := Some a |}
                       = Run (map (response false false) (omap truthy_delta evs)
                                ++ [terminal err])
                             {| agent := Some a |} (Normal tt)).
      { run_stream evs a.
        destruct err as [e|]; cbn [yielded final outcome terminal];
          now rewrite ?app_nil_r. }
      rewrite Hrun. cbn [yielded final outcome].
      split; [reflexivity|]. split; [reflexivity|].
      exists (map (response false false) (omap truthy_delta evs)),
        (terminal err), (match err with None => true | Some _ => false end).
      split; [reflexivity|]. split.
      { apply Forall_forall. intros d Hd.
        apply list_elem_of_fmap in Hd as (v & -> & Hv).
        apply list_elem_of_omap in Hv as (e & _ & He).
        split; [exact (dom_response false false v)|].
        split; [reflexivity|]. split; [reflexivity|].
        exists v. split; [reflexivity|]. now apply truthy_delta_truthy with e. }
      destruct err as [e|]; cbn [terminal].
      * split; [exact (dom_response false true _)|].
        split; [reflexivity|]. split; [reflexivity|].
        split; [discriminate|]. intros (a' & evs' & _ & H). discriminate H.
      * split; [exact (dom_response true false _)|].
        split; [reflexivity|]. split; [reflexivity|].
        split; [|reflexivity]. intros _. eauto.
  - split; [reflexivity|]. split; [reflexivity|].
    exists [], not_initialized, false.
    split; [reflexivity|]. split; [constructor|].
    split; [exact (dom_response false true _)|].
    split; [reflexivity|]. split; [reflexivity|].
    split; [discriminate|]. intros (a' & evs & H & _). discriminate H.
Qed.

(** After [initialize] has gone through, [invoke] calls the runner once,
    with the agent named 'Sports Results Agent', whatever the wrapper
    held before. *)
Theorem invoke_after_initialize (runner_run : string -> exn + value)
    (user_input : string) (session_id : option string)
    (self : OpenAIWebSearchAgent) :
  let r := bind (initialize None)
             (fun _ => invoke runner_run user_input session_id) self in
  yielded r = [RunnerRun sports_results_agent user_input]
  /\ final r = {| agent := Some sports_results_agent |}
  /\ outcome r
     = Normal match runner_run user_input with
              | inr final_output => response true false final_output
              | inl e => error_response e
              end.
Proof.
  cbv zeta.
  assert (Hinit : initialize None self
                  = Run [] {| agent := Some sports_results_agent |} (Normal tt))
    by reflexivity.
  rewrite (bind_normal _ _ _ _ _ _ Hinit).
  destruct (runner_run user_input) as [e|v] eqn:Hr.
  - now rewrite (invoke_failure runner_run user_input session_id
                   {| agent := Some sports_results_agent |}
                   sports_results_agent e eq_refl Hr).
  - now rewrite (invoke_success runner_run user_input session_id
                   {| agent := Some sports_results_agent |}
                   sports_results_agent v eq_refl Hr).
Qed.

(** After [cleanup], and after an [initialize] that failed (which cleans
    up before it lets the exception out, also when the wrapper held an
    agent before), the wrapper is back to not initialised: [invoke] and
    [stream] answer with the 'not initialized' dictionary and the runner
    is not called. *)
Theorem not_initialized_after_cleanup (runner_run : string -> exn + value)
    (run_streamed : exn + (list event * option exn))
    (user_input : string) (session_id : option string)
    (e : exn) (self : OpenAIWebSearchAgent) :
  initialize (Some e) self = Run [] {| agent := None |} (Raise e)
  /\ final (cleanup self) = final (initialize (Some e) self)
  /\ bind cleanup (fun _ => invoke runner_run user_input session_id) self
     = Run [] {| agent := None |} (Normal not_initialized)
  /\ stream run_streamed user_input session_id (final (cleanup self))
     = Run [not_initialized] {| agent := None |} (Normal tt).
Proof. repeat split. Qed.
End SportsResultsAgentMore.
